(** * Data ingestion of the network-security pipeline

    A shallow embedding of [networksecurity/components/data_ingestion.py]:
    the [DataIngestion] class with its reader
    ([export_collection_as_dataframe]), feature-store writer
    ([export_data_into_feature_store]), splitter
    ([split_data_as_train_test]) and orchestrator
    ([initiate_data_ingestion]).

    The Python methods run against an explicit [world]: the process
    environment, the [.env] file, the reachable MongoDB deployments, the
    file system, the log and the sequence of calls made to the outside.
    A method is a function from a world to a result (a value or a raised
    exception) and the world it leaves behind; effects made before an
    exception is raised stay in the world, as they do in Python.

    The third-party routines the module calls (pandas, pymongo, os,
    scikit-learn) are embedded after their documented behaviour, each next
    to the call that uses it. Python floats are IEEE 754 binary64 numbers,
    here [spec_float] with precision 53 and maximal exponent 1024. *)

From Stdlib Require Import ZArith String Ascii List Lia QArith.
From Stdlib Require Import Floats.SpecFloat.
From stdpp Require Import base gmap strings list fin_maps pretty.

Close Scope Q_scope.
Local Open Scope string_scope.
Local Open Scope list_scope.
Local Open Scope Z_scope.

(** ** Values, documents and tables *)

(** A cell of a document or of a table. [VNaN] is [numpy.nan], the
    missing-value marker; [VOid] is a [bson.ObjectId]. *)
Inductive value :=
| VStr (s : string)
| VInt (z : Z)
| VOid (hex : string)
| VNaN.

#[global] Instance value_eq_dec : EqDecision value.
Proof. solve_decision. Defined.

(** First binding of a key in an association list: [d.get(k)] on a
    document, [df[c]] on the columns of a table. *)
Fixpoint assoc {A} (k : string) (l : list (string * A)) : option A :=
  match l with
  | [] => None
  | (k', v) :: l' => if decide (k' = k) then Some v else assoc k l'
  end.

(** A MongoDB document: its fields in order. *)
Definition document := list (string * value).

(** A pandas [DataFrame], column by column as pandas stores it: the index
    labels and, for each column, its label and its cells. [len(df)] is the
    length of the index. *)
Record DataFrame := mkDataFrame {
  index : list nat;
  series : list (string * list value)
}.

#[global] Instance DataFrame_eq_dec : EqDecision DataFrame.
Proof. solve_decision. Defined.

Definition len (df : DataFrame) : nat := length (index df).

(** [df.columns] *)
Definition columns (df : DataFrame) : list string := (series df).*1.

(** Every column has one cell per index label, as in any pandas table. *)
Definition well_formed (df : DataFrame) : Prop :=
  Forall (λ s : string * list value, length s.2 = len df) (series df).

(** The cell in row position [i] of column [c], if there is one. *)
Definition cell (df : DataFrame) (i : nat) (c : string) : option value :=
  vs ← assoc c (series df); vs !! i.

(** *** pandas *)

(** The labels of [ks] in order of first appearance, skipping those in
    [seen]: how [pd.DataFrame] orders the columns of a list of dicts. *)
Fixpoint fast_unique (seen ks : list string) : list string :=
  match ks with
  | [] => []
  | k :: ks' =>
      if decide (k ∈ seen) then fast_unique seen ks'
      else k :: fast_unique (k :: seen) ks'
  end.

(** [pd.DataFrame(docs)] for a list of dicts: a [RangeIndex], one column
    per key, and [NaN] where a document lacks the key. *)
Definition pd_DataFrame (docs : list document) : DataFrame :=
  {| index := seq 0 (length docs);
     series :=
       (λ c, (c, (λ d : document, default VNaN (assoc c d)) <$> docs))
         <$> fast_unique [] (mjoin ((λ d : document, d.*1) <$> docs)) |}.

(** [df.drop(columns=[c], inplace=True)] on a table that has the column. *)
Definition drop_column (c : string) (df : DataFrame) : DataFrame :=
  {| index := index df;
     series := filter (λ s : string * list value, s.1 ≠ c) (series df) |}.

(** [df.replace({old: new}, inplace=True)]: every cell equal to [old]
    becomes [new]. *)
Definition replace (old new : value) (df : DataFrame) : DataFrame :=
  {| index := index df;
     series :=
       (λ s : string * list value,
          (s.1, (λ v, if decide (v = old) then new else v) <$> s.2))
         <$> series df |}.

(** The table the reader builds from the documents of a collection:
    [pd.DataFrame(docs)], without its ["_id"] column if it has one, with
    every ["na"] cell turned into [NaN]. *)
Definition exported (docs : list document) : DataFrame :=
  replace (VStr "na") VNaN
    (if bool_decide ("_id" ∈ columns (pd_DataFrame docs))
     then drop_column "_id" (pd_DataFrame docs)
     else pd_DataFrame docs).

(** A delimited text file as [to_csv(path, index=False, header=True)]
    writes it: the header line, then one record per row, without the index
    labels. *)
Record csv := mkCsv {
  header : list string;
  records : list (list value)
}.

#[global] Instance csv_eq_dec : EqDecision csv.
Proof. solve_decision. Defined.

(** The cells of row position [i], one per column. *)
Definition row_at (df : DataFrame) (i : nat) : list value :=
  (λ s : string * list value, default VNaN (s.2 !! i)) <$> series df.

Definition csv_of (df : DataFrame) : csv :=
  {| header := columns df;
     records := row_at df <$> seq 0 (len df) |}.

(** [df.iloc[positions]]: the rows at the given positions, in that order,
    with their index labels. *)
Definition iloc (positions : list nat) (df : DataFrame) : DataFrame :=
  {| index := omap (λ p, index df !! p) positions;
     series :=
       (λ s : string * list value, (s.1, omap (λ p, s.2 !! p) positions))
         <$> series df |}.

(** ** Exceptions *)

(** Modelled from the spec: [NetworkSecurityException], the class of
    [networksecurity.exception.exception], which is not among the sources.
    [NetworkSecurityException(e, sys)] is "a wrapping domain exception
    that carries the originating cause and a trace reference":
    [error_message] is the exception it was built from, and [frame] names
    the method whose handler built it, the frame the trace starts in.

    The other constructors are the exceptions that the library calls of
    the module raise. All of them derive from Python's [Exception]. *)
Inductive exn :=
| ServerSelectionTimeoutError
| FileNotFoundError
| FileExistsError
| NotADirectoryError
| IsADirectoryError
| ValueError
| OverflowError
| IndexError
| NetworkSecurityException (error_message : exn) (frame : string).

#[global] Instance exn_eq_dec : EqDecision exn.
Proof. solve_decision. Defined.

Inductive result (A : Type) :=
| Ok (a : A)
| Raise (e : exn).
Arguments Ok {A} a.
Arguments Raise {A} e.

#[global] Instance result_ret : MRet result := @Ok.
#[global] Instance result_bind : MBind result :=
  λ A B k r, match r with Ok a => k a | Raise e => Raise e end.

(** ** The world *)

Inductive node :=
| Dir
| File (content : csv).

#[global] Instance node_eq_dec : EqDecision node.
Proof. solve_decision. Defined.

(** A call that leaves the process: a query, a directory creation, a file
    write. *)
Inductive call :=
| Find (url : option string) (database_name collection_name : string)
| Makedirs (path : string)
| ToCsv (path : string).

#[global] Instance call_eq_dec : EqDecision call.
Proof. solve_decision. Defined.

Inductive level := INFO | ERROR.

Record world := mkWorld {
  environ : gmap string string;
  dotenv : gmap string string;
  mongo : gmap (option string) (gmap (string * string) (list document));
  fs : gmap string node;
  log : list (level * string);
  calls : list call
}.

(** ** Computations *)

Definition M (A : Type) : Type := world → result A * world.

Definition ret {A} (a : A) : M A := λ w, (Ok a, w).

Definition bind {A B} (m : M A) (k : A → M B) : M B :=
  λ w, match m w with
       | (Ok a, w') => k a w'
       | (Raise e, w') => (Raise e, w')
       end.

#[global] Instance M_ret : MRet M := @ret.
#[global] Instance M_bind : MBind M := λ A B k m, bind m k.

Definition raise {A} (e : exn) : M A := λ w, (Raise e, w).

(** [try: body  except Exception as e: handler e] *)
Definition try_except {A} (body : M A) (handler : exn → M A) : M A :=
  λ w, match body w with
       | (Ok a, w') => (Ok a, w')
       | (Raise e, w') => handler e w'
       end.

(** A pure computation that may raise. *)
Definition lift {A} (r : result A) : M A := λ w, (r, w).

Definition set_environ (w : world) (e : gmap string string) : world :=
  {| environ := e; dotenv := dotenv w; mongo := mongo w;
     fs := fs w; log := log w; calls := calls w |}.

Definition set_fs (w : world) (f : gmap string node) : world :=
  {| environ := environ w; dotenv := dotenv w; mongo := mongo w;
     fs := f; log := log w; calls := calls w |}.

Definition add_log (w : world) (entries : list (level * string)) : world :=
  {| environ := environ w; dotenv := dotenv w; mongo := mongo w;
     fs := fs w; log := log w ++ entries; calls := calls w |}.

Definition add_calls (w : world) (cs : list call) : world :=
  {| environ := environ w; dotenv := dotenv w; mongo := mongo w;
     fs := fs w; log := log w; calls := calls w ++ cs |}.

(** [logging.info(msg)], [logging.error(msg)] *)
Definition logging (lv : level) (msg : string) : M unit :=
  λ w, (Ok (), add_log w [(lv, msg)]).

(** The record of a call to the outside, made before the call runs. *)
Definition called (c : call) : M unit :=
  λ w, (Ok (), add_calls w [c]).

(** An operation on the file system: its changes are kept when it
    returns, and there are none when it raises. *)
Definition update_fs (op : gmap string node → result (gmap string node)) : M unit :=
  λ w, match op (fs w) with
       | Ok f => (Ok (), set_fs w f)
       | Raise e => (Raise e, w)
       end.

Definition get_mongo
  : M (gmap (option string) (gmap (string * string) (list document))) :=
  λ w, (Ok (mongo w), w).

(** *** os, dotenv

    The file system maps a path, as it is written, to the directory or
    the file that is there; paths are POSIX paths. *)

(** [load_dotenv()]: the variables of the [.env] file enter the
    environment; a variable already set keeps its value. *)
Definition load_dotenv : M unit :=
  λ w, (Ok (), set_environ w (environ w ∪ dotenv w)).

(** [os.getenv(name)] *)
Definition getenv (name : string) : M (option string) :=
  λ w, (Ok (environ w !! name), w).

Definition sep : ascii := "/"%char.

(** [p[:p.rfind(sep) + 1]] *)
Fixpoint up_to_last_sep (p : list ascii) : list ascii :=
  match p with
  | [] => []
  | c :: p' =>
      match up_to_last_sep p' with
      | [] => if decide (c = sep) then [c] else []
      | h => c :: h
      end
  end.

(** [p.rstrip(sep)] *)
Fixpoint rstrip_sep (p : list ascii) : list ascii :=
  match p with
  | [] => []
  | c :: p' =>
      match rstrip_sep p' with
      | [] => if decide (c = sep) then [] else [c]
      | t => c :: t
      end
  end.

(** [head == sep * len(head)] *)
Definition all_sep (p : list ascii) : bool :=
  forallb (λ c, bool_decide (c = sep)) p.

(** [os.path.dirname] (posixpath) *)
Definition dirname (p : string) : string :=
  let head := up_to_last_sep (list_ascii_of_string p) in
  string_of_list_ascii
    (if negb (bool_decide (head = [])) && negb (all_sep head)
     then rstrip_sep head else head).

(** The directories above [p], outermost first: the prefixes of [p] that
    end before a separator, the root apart. *)
Fixpoint ancestors_from (pre rest : list ascii) : list string :=
  match rest with
  | [] => []
  | c :: rest' =>
      (if bool_decide (c = sep) && negb (all_sep pre)
          && negb (bool_decide (last pre = Some sep))
       then [string_of_list_ascii pre] else [])
      ++ ancestors_from (pre ++ [c]) rest'
  end.

Definition ancestors (p : string) : list string :=
  ancestors_from [] (list_ascii_of_string p).

(** Creating the directories [ps], each below the one before it, the last
    one being the directory asked for. A directory that exists is kept; a
    file in the way of an intermediate directory is [NotADirectoryError],
    a file in place of the last one is [FileExistsError]. Where a file is
    in the way, the directories above it exist already, so that nothing
    has been created when the error is raised. *)
Fixpoint mkdirs (ps : list string) (f : gmap string node)
  : result (gmap string node) :=
  match ps with
  | [] => Ok f
  | p :: ps' =>
      match f !! p with
      | Some Dir => mkdirs ps' f
      | Some (File _) =>
          Raise (match ps' with [] => FileExistsError | _ => NotADirectoryError end)
      | None => mkdirs ps' (<[p := Dir]> f)
      end
  end.

(** [os.makedirs(name, exist_ok=True)] on a file system. *)
Definition mkdir_p (name : string) (f : gmap string node)
  : result (gmap string node) :=
  if bool_decide (name = "") then Raise FileNotFoundError
  else if all_sep (list_ascii_of_string name) then Ok f
  else mkdirs (ancestors name ++ [name]) f.

Definition makedirs (name : string) : M unit :=
  called (Makedirs name);;
  update_fs (mkdir_p name).

(** Whether files can be created in directory [d]: the working directory
    ([""]) and the root are there, any other directory has to exist. *)
Definition opendir (f : gmap string node) (d : string) : result unit :=
  if bool_decide (d = "") || all_sep (list_ascii_of_string d) then Ok ()
  else match f !! d with
       | Some Dir => Ok ()
       | Some (File _) => Raise NotADirectoryError
       | None => Raise FileNotFoundError
       end.

(** Opening [path] for writing and storing [content] in it: the file at
    [path] is replaced. *)
Definition write_file (path : string) (content : csv) (f : gmap string node)
  : result (gmap string node) :=
  if bool_decide (path = "") then Raise FileNotFoundError
  else if bool_decide (last (list_ascii_of_string path) = Some sep)
  then Raise IsADirectoryError
  else
    match f !! path with
    | Some Dir => Raise IsADirectoryError
    | _ =>
        opendir f (dirname path);;
        Ok (<[path := File content]> f)
    end.

(** [dataframe.to_csv(path, index=False, header=True)] *)
Definition to_csv (dataframe : DataFrame) (path : string) : M unit :=
  called (ToCsv path);;
  update_fs (write_file path (csv_of dataframe)).

(** *** pymongo *)

(** The documents of a collection of the deployment at [url]: a
    deployment that cannot be reached is [ServerSelectionTimeoutError]; a
    collection that does not exist has no documents. *)
Definition query
    (deployments : gmap (option string) (gmap (string * string) (list document)))
    (url : option string) (database_name collection_name : string)
  : result (list document) :=
  match deployments !! url with
  | Some server => Ok (default [] (server !! (database_name, collection_name)))
  | None => Raise ServerSelectionTimeoutError
  end.

(** [list(pymongo.MongoClient(url, tlsCAFile=certifi.where())
    [database_name][collection_name].find())]: the client connects when
    the query is sent. *)
Definition find (url : option string) (database_name collection_name : string)
  : M (list document) :=
  called (Find url database_name collection_name);;
  deployments ← get_mongo;
  lift (query deployments url database_name collection_name).

(** ** Python floats and slices *)

Definition float_of_int (n : Z) : spec_float := binary_normalize 53 1024 n 0 false.

Definition float_mul : spec_float → spec_float → spec_float := SFmul 53 1024.
Definition float_add : spec_float → spec_float → spec_float := SFadd 53 1024.

(** The signed mantissa of a finite float. *)
Definition signed (s : bool) (m : positive) : Z := cond_Zopp s (Z.pos m).

(** [math.ceil] and [math.floor] on a float: an integer, [ValueError] on
    NaN, [OverflowError] on an infinity. *)
Definition ceil (x : spec_float) : result Z :=
  match x with
  | S754_zero _ => Ok 0
  | S754_infinity _ => Raise OverflowError
  | S754_nan => Raise ValueError
  | S754_finite s m e =>
      Ok (if 0 <=? e then signed s m * 2 ^ e else - (- signed s m / 2 ^ (- e)))
  end.

Definition floor (x : spec_float) : result Z :=
  match x with
  | S754_zero _ => Ok 0
  | S754_infinity _ => Raise OverflowError
  | S754_nan => Raise ValueError
  | S754_finite s m e =>
      Ok (if 0 <=? e then signed s m * 2 ^ e else signed s m / 2 ^ (- e))
  end.

(** A slice bound [i] on a sequence of length [n], as Python resolves it:
    a negative bound counts from the end, and bounds are clipped. *)
Definition bound (n : nat) (i : Z) : nat :=
  Z.to_nat (if i <? 0 then Z.max (i + Z.of_nat n) 0 else Z.min i (Z.of_nat n)).

(** [l[start:stop]] *)
Definition slice {A} (start stop : Z) (l : list A) : list A :=
  take (bound (length l) stop - bound (length l) start)
       (drop (bound (length l) start) l).

(** ** The module *)

Section DataIngestion.

(** [numpy.random.RandomState(seed).permutation(n)]: the shuffle of
    [0 .. n-1] that the generator seeded with [seed] draws first. *)
Variable permutation : Z → nat → list nat.

(** *** scikit-learn *)

(** A [test_size] or [train_size] argument. *)
Inductive split_size :=
| SizeNone
| SizeInt (n : Z)
| SizeFloat (x : spec_float).

(** An integer size has to lie in [1 .. n_samples - 1], a float size
    strictly between 0 and 1. *)
Definition out_of_range (n_samples : Z) (sz : split_size) : bool :=
  match sz with
  | SizeNone => false
  | SizeInt n => (n_samples <=? n) || (n <=? 0)
  | SizeFloat x => SFleb x (S754_zero false) || SFleb (float_of_int 1) x
  end.

Definition sizes_exceed_one (test_size train_size : split_size) : bool :=
  match test_size, train_size with
  | SizeFloat x, SizeFloat y => SFltb (float_of_int 1) (float_add y x)
  | _, _ => false
  end.

(** The number of samples a size stands for, by the given rounding. An
    integer size stands for itself: [float(n)], which the routine takes,
    and [int(...)], which it takes at the end, are the identity on row
    counts. *)
Definition count_of (round : spec_float → result Z) (n_samples : Z) (sz : split_size)
  : result Z :=
  match sz with
  | SizeNone => Ok 0
  | SizeInt n => Ok n
  | SizeFloat x => round (float_mul x (float_of_int n_samples))
  end.

(** [sklearn.model_selection._split._validate_shuffle_split]: the numbers
    of train and test samples. *)
Definition validate_shuffle_split
    (n_samples : Z) (test_size train_size : split_size) (default_test_size : spec_float)
  : result (Z * Z) :=
  let test_size :=
    match test_size, train_size with
    | SizeNone, SizeNone => SizeFloat default_test_size
    | _, _ => test_size
    end in
  if out_of_range n_samples test_size then Raise ValueError
  else if out_of_range n_samples train_size then Raise ValueError
  else if sizes_exceed_one test_size train_size then Raise ValueError
  else
    n_test ← count_of ceil n_samples test_size;
    n_train ← count_of floor n_samples train_size;
    let n_train :=
      match train_size with SizeNone => n_samples - n_test | _ => n_train end in
    let n_test :=
      match train_size, test_size with
      | SizeNone, _ => n_test
      | _, SizeNone => n_samples - n_train
      | _, _ => n_test
      end in
    if n_samples <? n_train + n_test then Raise ValueError
    else if n_train =? 0 then Raise ValueError
    else Ok (n_train, n_test).

(** 0.25 and 0.1 *)
Definition quarter : spec_float := S754_finite false 4503599627370496 (-54).
Definition tenth : spec_float := S754_finite false 3602879701896397 (-55).

(** [next(ShuffleSplit(test_size, train_size, random_state).split(X))] for
    [n_samples] rows: the train and the test positions. *)
Definition shuffle_split
    (n_samples : nat) (test_size train_size : split_size) (random_state : Z)
  : result (list nat * list nat) :=
  '(n_train, n_test) ←
    validate_shuffle_split (Z.of_nat n_samples) test_size train_size tenth;
  let permutation := permutation random_state n_samples in
  let ind_test := slice 0 n_test permutation in
  let ind_train := slice n_test (n_test + n_train) permutation in
  Ok (ind_train, ind_test).

(** [_safe_indexing(X, indices)] on a table: [X.iloc[indices]], an
    [IndexError] when a position is out of bounds. *)
Definition safe_indexing (X : DataFrame) (indices : list nat) : result DataFrame :=
  if forallb (λ p, p <? len X)%nat indices then Ok (iloc indices X)
  else Raise IndexError.

(** [train_test_split(dataframe, test_size=test_size,
    random_state=random_state)] *)
Definition train_test_split
    (dataframe : DataFrame) (test_size : split_size) (random_state : Z)
  : result (DataFrame * DataFrame) :=
  let n_samples := len dataframe in
  '(n_train, n_test) ←
    validate_shuffle_split (Z.of_nat n_samples) test_size SizeNone quarter;
  '(train, test) ←
    shuffle_split n_samples (SizeInt n_test) (SizeInt n_train) random_state;
  train_set ← safe_indexing dataframe train;
  test_set ← safe_indexing dataframe test;
  Ok (train_set, test_set).

(** *** Configuration and artifact *)

(** Modelled from the spec: [DataIngestionConfig], the class of
    [networksecurity.entity.config_entity], which is not among the
    sources. The configuration gives the "database name, collection name,
    three output file paths, and a split ratio", the ratio being "a
    configured fraction", a Python float. *)
Record DataIngestionConfig := mkDataIngestionConfig {
  database_name : string;
  collection_name : string;
  feature_store_file_path : string;
  training_file_path : string;
  testing_file_path : string;
  train_test_split_ratio : spec_float
}.

(** Modelled from the spec: [DataIngestionArtifact], the class of
    [networksecurity.entity.artifact_entity], which is not among the
    sources. The artifact is "a result record exposing the training-file
    path and testing-file path as plain strings". *)
Record DataIngestionArtifact := mkDataIngestionArtifact {
  trained_file_path : string;
  test_file_path : string
}.

(** *** Module level *)

(** The globals of the module. *)
Record globals := mkGlobals {
  MONGO_DB_URL : option string
}.

(** Importing the module runs its top level: [load_dotenv()], then
    [MONGO_DB_URL = os.getenv("MONGO_DB_URL")]. *)
Definition import_module : M globals :=
  load_dotenv;;
  url ← getenv "MONGO_DB_URL";
  ret {| MONGO_DB_URL := url |}.

(** *** class DataIngestion *)

Record DataIngestion := mkDataIngestion {
  data_ingestion_config : DataIngestionConfig
}.

(** [raise NetworkSecurityException(e, sys) from e] in the handler of
    method [frame]. *)
Definition reraise {A} (frame : string) (e : exn) : M A :=
  raise (NetworkSecurityException e frame).

Definition __init__ (data_ingestion_config : DataIngestionConfig)
  : M DataIngestion :=
  try_except
    (let self := {| data_ingestion_config := data_ingestion_config |} in
     logging INFO "DataIngestion class initialized.";;
     ret self)
    (reraise "__init__").

Definition export_collection_as_dataframe (g : globals) (self : DataIngestion)
  : M DataFrame :=
  try_except
    (logging INFO "Exporting collection from MongoDB";;
     let database_name := database_name (data_ingestion_config self) in
     let collection_name := collection_name (data_ingestion_config self) in
     let mongo_client := MONGO_DB_URL g in
     docs ← find mongo_client database_name collection_name;
     let df := pd_DataFrame docs in
     let df := if bool_decide ("_id" ∈ columns df) then drop_column "_id" df else df in
     let df := replace (VStr "na") VNaN df in
     logging INFO
       ("Successfully exported " +:+ pretty (len df) +:+ " records from MongoDB.");;
     ret df)
    (λ e,
       logging ERROR "Error occurred while exporting collection.";;
       reraise "export_collection_as_dataframe" e).

Definition export_data_into_feature_store (self : DataIngestion) (dataframe : DataFrame)
  : M DataFrame :=
  try_except
    (let feature_store_file_path :=
       feature_store_file_path (data_ingestion_config self) in
     let dir_path := dirname feature_store_file_path in
     makedirs dir_path;;
     to_csv dataframe feature_store_file_path;;
     logging INFO ("Data exported to feature store at " +:+ feature_store_file_path);;
     ret dataframe)
    (reraise "export_data_into_feature_store").

Definition split_data_as_train_test (self : DataIngestion) (dataframe : DataFrame)
  : M unit :=
  try_except
    ('(train_set, test_set) ←
       lift (train_test_split dataframe
               (SizeFloat (train_test_split_ratio (data_ingestion_config self)))
               42);
     logging INFO "Performed train-test split.";;
     let dir_path := dirname (training_file_path (data_ingestion_config self)) in
     makedirs dir_path;;
     to_csv train_set (training_file_path (data_ingestion_config self));;
     to_csv test_set (testing_file_path (data_ingestion_config self));;
     logging INFO "Train and test files saved successfully.")
    (reraise "split_data_as_train_test").

Definition initiate_data_ingestion (g : globals) (self : DataIngestion)
  : M DataIngestionArtifact :=
  try_except
    (logging INFO "Starting data ingestion process.";;
     dataframe ← export_collection_as_dataframe g self;
     dataframe ← export_data_into_feature_store self dataframe;
     split_data_as_train_test self dataframe;;
     let data_ingestion_artifact :=
       {| trained_file_path := training_file_path (data_ingestion_config self);
          test_file_path := testing_file_path (data_ingestion_config self) |} in
     logging INFO "Data ingestion completed successfully.";;
     ret data_ingestion_artifact)
    (reraise "initiate_data_ingestion").

End DataIngestion.

(** ** Notions used in the statements *)


(** An exception raised by a library call, not the module's wrapper. *)
Definition library_error (e : exn) : bool :=
  match e with
  | NetworkSecurityException _ _ => false
  | _ => true
  end.

(** A method returned, or raised the wrapper built in its own handler
    around the library error that made it fail. *)
Definition wraps_once {A} (frame : string) (r : result A) : Prop :=
  match r with
  | Ok _ => True
  | Raise (NetworkSecurityException cause f) => f = frame ∧ library_error cause = true
  | Raise _ => False
  end.

(** The orchestrator returned, or raised the wrapper built in its own
    handler around the wrapper one of its three steps raised. *)
Definition wraps_step {A} (r : result A) : Prop :=
  match r with
  | Ok _ => True
  | Raise (NetworkSecurityException (NetworkSecurityException cause f) f') =>
      f' = "initiate_data_ingestion"
      ∧ f ∈ ["export_collection_as_dataframe"; "export_data_into_feature_store";
             "split_data_as_train_test"]
      ∧ library_error cause = true
  | Raise _ => False
  end.

(** The result of a library routine: a value, or a library error. *)
Definition library_result {A} (r : result A) : Prop :=
  match r with
  | Ok _ => True
  | Raise e => library_error e = true
  end.

(** The calls a run made are an initial part of [full], and all of
    [full] if the run returned. *)
Definition made {A} (full : list call) (w : world) (rw : result A * world) : Prop :=
  ∃ cs,
    calls rw.2 = calls w ++ cs
    ∧ cs `prefix_of` full
    ∧ match rw.1 with Ok _ => cs = full | Raise _ => True end.

(** Every directory of [f] is a directory of [g]. *)
Definition dirs_kept (f g : gmap string node) : Prop :=
  ∀ q, f !! q = Some Dir → g !! q = Some Dir.

(** The calls of a run of the pipeline that succeeds, in order. *)
Definition pipeline_calls (g : globals) (cfg : DataIngestionConfig) : list call :=
  [ Find (MONGO_DB_URL g) (database_name cfg) (collection_name cfg);
    Makedirs (dirname (feature_store_file_path cfg));
    ToCsv (feature_store_file_path cfg);
    Makedirs (dirname (training_file_path cfg));
    ToCsv (training_file_path cfg);
    ToCsv (testing_file_path cfg) ].

(** The reading of the connection string that the interface description
    gives: a call of the reader behaves as if the module global held the
    value the variable has in the environment of that call. *)
Definition reads_url_at_call : Prop :=
  ∀ (w0 : world) (g : globals) (w1 : world) (self : DataIngestion) (w : world),
    import_module w0 = (Ok g, w1) →
    export_collection_as_dataframe g self w
    = export_collection_as_dataframe
        {| MONGO_DB_URL := environ w !! "MONGO_DB_URL" |} self w.

(** ** A scenario

    Ten documents, one of them with ["na"] in its field ["x"], a split
    ratio of 0.2, an empty file system. *)
Module Scenario.

Definition docs : list document :=
  (λ i : nat,
     [("_id", VOid (pretty i));
      ("x", if decide (i = 3%nat) then VStr "na" else VInt (Z.of_nat i))])
    <$> seq 0 10.

Definition url : string := "mongodb+srv://cluster0.example.net".

Definition start : world :=
  {| environ := {[ "MONGO_DB_URL" := url ]};
     dotenv := ∅;
     mongo := {[ Some url := {[ ("NETWORK", "DATA") := docs ]} ]};
     fs := ∅;
     log := [];
     calls := [] |}.

Definition config : DataIngestionConfig :=
  {| database_name := "NETWORK";
     collection_name := "DATA";
     feature_store_file_path := "Artifacts/feature_store/data.csv";
     training_file_path := "Artifacts/ingested/train.csv";
     testing_file_path := "Artifacts/ingested/test.csv";
     train_test_split_ratio := S754_finite false 3602879701896397 (-54) |}.

Definition self : DataIngestion := {| data_ingestion_config := config |}.

(** The module global after the import in [start]. *)
Definition g : globals := {| MONGO_DB_URL := Some url |}.

(** A shuffle to run the scenario with: the positions in reverse. *)
Definition shuffle (seed : Z) (n : nat) : list nat := reverse (seq 0 n).

(** The world after the import, with the variable changed to another
    deployment, which cannot be reached. *)
Definition moved : world :=
  set_environ start {[ "MONGO_DB_URL" := "mongodb://localhost:27017" ]}.

Definition empty_frame : DataFrame := pd_DataFrame [].

End Scenario.

(** ** More cases

    Variations on the scenario: paths without a directory part, a testing
    file in a directory of its own, a ratio of 1.0, a collection of one
    document, a file system that is in use. *)
Module Cases.

Definition bare : DataIngestion :=
  {| data_ingestion_config :=
       {| database_name := "NETWORK";
          collection_name := "DATA";
          feature_store_file_path := "data.csv";
          training_file_path := "train.csv";
          testing_file_path := "test.csv";
          train_test_split_ratio := train_test_split_ratio Scenario.config |} |}.

Definition apart : DataIngestion :=
  {| data_ingestion_config :=
       {| database_name := "NETWORK";
          collection_name := "DATA";
          feature_store_file_path := "Artifacts/feature_store/data.csv";
          training_file_path := "Artifacts/ingested/train.csv";
          testing_file_path := "Held_out/test.csv";
          train_test_split_ratio := train_test_split_ratio Scenario.config |} |}.

Definition all_for_test : DataIngestion :=
  {| data_ingestion_config :=
       {| database_name := "NETWORK";
          collection_name := "DATA";
          feature_store_file_path := "Artifacts/feature_store/data.csv";
          training_file_path := "Artifacts/ingested/train.csv";
          testing_file_path := "Artifacts/ingested/test.csv";
          train_test_split_ratio := float_of_int 1 |} |}.

Definition one_document : world :=
  {| environ := environ Scenario.start;
     dotenv := dotenv Scenario.start;
     mongo :=
       {[ Some Scenario.url := {[ ("NETWORK", "DATA") := take 1 Scenario.docs ]} ]};
     fs := ∅;
     log := [];
     calls := [] |}.



End Cases.

(** * Properties *)

(** ** Examples *)

Example dirname_nested :
  dirname "Artifacts/ingested/train.csv" = "Artifacts/ingested".
Proof. reflexivity. Qed.

Example dirname_bare : dirname "train.csv" = "".
Proof. reflexivity. Qed.

Example dirname_root : dirname "/train.csv" = "/".
Proof. reflexivity. Qed.

Example ancestors_nested : ancestors "/srv/Artifacts/ingested" = ["/srv"; "/srv/Artifacts"].
Proof. reflexivity. Qed.

(** A path without a directory part has no directory to create:
    [os.makedirs("")] raises. *)
Example makedirs_of_bare_file_name :
  mkdir_p (dirname "train.csv") ∅ = Raise FileNotFoundError.
Proof. reflexivity. Qed.

Example makedirs_through_a_file :
  mkdir_p "a/b" {[ "a" := File {| header := []; records := [] |} ]}
  = Raise NotADirectoryError.
Proof. reflexivity. Qed.

Example pd_DataFrame_of_two :
  pd_DataFrame [[("a", VInt 1)]; [("b", VStr "na"); ("a", VInt 2)]]
  = {| index := [0; 1]%nat;
       series := [("a", [VInt 1; VInt 2]); ("b", [VNaN; VStr "na"])] |}.
Proof. reflexivity. Qed.

Example exported_of_two :
  exported [[("_id", VOid "65f0"); ("a", VInt 1)]; [("b", VStr "na"); ("a", VInt 2)]]
  = {| index := [0; 1]%nat;
       series := [("a", [VInt 1; VInt 2]); ("b", [VNaN; VNaN])] |}.
Proof. reflexivity. Qed.

(** 0.2 * 10 is 2.0 in binary64, and two rows are taken for the test. *)
Example fifth_of_ten :
  ceil (float_mul (S754_finite false 3602879701896397 (-54)) (float_of_int 10))
  = Ok 2.
Proof. reflexivity. Qed.

(** 0.07 * 100 is 7.000000000000001 in binary64, and eight rows are taken
    for the test. *)
Example seven_hundredths_of_hundred :
  ceil (float_mul (S754_finite false 5044031582654956 (-56)) (float_of_int 100))
  = Ok 8.
Proof. reflexivity. Qed.

Example slice_from_the_end : slice (-2) 9 [10; 11; 12; 13] = [12; 13].
Proof. reflexivity. Qed.

Example one_row_cannot_be_split :
  validate_shuffle_split 1 (SizeFloat (S754_finite false 3602879701896397 (-54)))
    SizeNone quarter
  = Raise ValueError.
Proof. reflexivity. Qed.

(** ** Tables *)

Lemma elem_of_fast_unique (ks seen : list string) (k : string) :
  k ∈ fast_unique seen ks ↔ k ∈ ks ∧ k ∉ seen.
Proof.
  revert seen. induction ks as [|k' ks IH]; intros seen; simpl.
  - split; [by intros ?%elem_of_nil|by intros [?%elem_of_nil _]].
  - destruct (decide (k' ∈ seen)) as [Hin|Hout].
    + rewrite IH, elem_of_cons. split; [tauto|].
      intros [[->|?] ?]; tauto.
    + rewrite !elem_of_cons, IH, not_elem_of_cons. split.
      * intros [->|[? [? ?]]]; tauto.
      * destruct (decide (k = k')); tauto.
  Qed.


Lemma assoc_tabulate {A} (g : string → A) (cs : list string) (c : string) :
  c ∈ cs → assoc c ((λ c, (c, g c)) <$> cs) = Some (g c).
Proof.
  induction cs as [|c' cs IH]; simpl; [by intros ?%elem_of_nil|].
  destruct (decide (c' = c)) as [->|Hne]; [done|].
  intros [?|?]%elem_of_cons; [congruence|auto].
Qed.

Lemma assoc_filter_ne {A} (c c' : string) (l : list (string * A)) :
  c ≠ c' → assoc c (filter (λ s : string * A, s.1 ≠ c') l) = assoc c l.
Proof.
  intros Hne. induction l as [|[k v] l IH]; [done|].
  rewrite filter_cons. simpl. destruct (decide (k ≠ c')) as [Hk|Hk]; simpl.
  - destruct (decide (k = c)); auto.
  - destruct (decide (k = c)); [|done]. apply dec_stable in Hk. congruence.
Qed.

Lemma assoc_fmap_snd {A B} (f : A → B) (c : string) (l : list (string * A)) :
  assoc c ((λ s : string * A, (s.1, f s.2)) <$> l) = f <$> assoc c l.
Proof.
  induction l as [|[k v] l IH]; [done|]. simpl.
  destruct (decide (k = c)); auto.
Qed.

Lemma columns_replace (old new : value) (df : DataFrame) :
  columns (replace old new df) = columns df.
Proof.
  unfold columns. simpl. rewrite <- list_fmap_compose. by apply list_fmap_ext.
Qed.

Lemma columns_drop_column (c : string) (df : DataFrame) :
  c ∉ columns (drop_column c df).
Proof.
  unfold columns. simpl. intros ([k vs] & -> & Hin)%list_elem_of_fmap.
  apply list_elem_of_filter in Hin as [Hne _]. by apply Hne.
Qed.

Lemma exported_len (docs : list document) : len (exported docs) = length docs.
Proof.
  unfold exported. case_bool_decide; unfold len; simpl; apply length_seq.
Qed.

Lemma exported_no_id (docs : list document) : "_id" ∉ columns (exported docs).
Proof.
  unfold exported. rewrite columns_replace.
  case_bool_decide; [apply columns_drop_column|done].
Qed.

(** Every column of an exported table has one cell per document. *)
Lemma exported_series_length (docs : list document) (c : string) (vs : list value) :
  (c, vs) ∈ series (exported docs) → length vs = length docs.
Proof.
  unfold exported. simpl.
  intros ([c' vs'] & [= -> ->] & Hin)%list_elem_of_fmap. simpl.
  rewrite length_fmap.
  assert ((c', vs') ∈ series (pd_DataFrame docs)) as Hpd.
  { case_bool_decide; [|done]. simpl in Hin.
    by apply list_elem_of_filter in Hin as [_ ?]. }
  simpl in Hpd. apply list_elem_of_fmap in Hpd as (k & [= -> ->] & _).
  by rewrite length_fmap.
Qed.


(** ** Floats, sizes and slices *)

Lemma validate_float_size (n : Z) (r d : spec_float) (n_train n_test : Z) :
  validate_shuffle_split n (SizeFloat r) SizeNone d = Ok (n_train, n_test) →
  ceil (float_mul r (float_of_int n)) = Ok n_test
  ∧ n_train = n - n_test ∧ n_train ≠ 0.
Proof.
  unfold validate_shuffle_split. cbn -[float_of_int float_mul ceil SFleb].
  destruct (_ || _); [done|].
  destruct (ceil (float_mul r (float_of_int n))) as [k|]; [|done].
  cbn -[Z.sub Z.add].
  destruct (n <? n - k + k); [done|].
  destruct (Z.eqb_spec (n - k) 0); [done|].
  intros [= <- <-]. auto.
Qed.

Lemma validate_int_sizes (n a b : Z) (d : spec_float) (n_train n_test : Z) :
  validate_shuffle_split n (SizeInt a) (SizeInt b) d = Ok (n_train, n_test) →
  n_train = b ∧ n_test = a ∧ 0 < a < n ∧ 0 < b < n ∧ a + b ≤ n.
Proof.
  unfold validate_shuffle_split. simpl.
  destruct (Z.leb_spec n a); simpl; [done|].
  destruct (Z.leb_spec a 0); simpl; [done|].
  destruct (Z.leb_spec n b); simpl; [done|].
  destruct (Z.leb_spec b 0); simpl; [done|].
  destruct (Z.ltb_spec n (b + a)); [done|].
  destruct (Z.eqb_spec b 0); [done|].
  intros [= <- <-]. lia.
Qed.

Lemma slice_prefix {A} (l : list A) (k : Z) :
  0 ≤ k ≤ Z.of_nat (length l) → slice 0 k l = take (Z.to_nat k) l.
Proof.
  intros Hk. unfold slice, bound. simpl.
  destruct (Z.ltb_spec k 0); [lia|].
  rewrite Z.min_l by lia. rewrite Z.min_l by lia. simpl.
  by rewrite Nat.sub_0_r.
Qed.

Lemma slice_suffix {A} (l : list A) (k t : Z) :
  0 ≤ k → k + t = Z.of_nat (length l) → 0 ≤ t →
  slice k (k + t) l = drop (Z.to_nat k) l.
Proof.
  intros Hk Hkt Ht. unfold slice, bound.
  destruct (Z.ltb_spec k 0); [lia|].
  destruct (Z.ltb_spec (k + t) 0); [lia|].
  rewrite !Z.min_l by lia.
  apply take_ge. rewrite length_drop. lia.
Qed.

(** ** Row selection *)

Lemma omap_total_lookup {A B} (f : A → option B) (l : list A) (j : nat) :
  Forall (λ x, is_Some (f x)) l → omap f l !! j = l !! j ≫= f.
Proof.
  intros Hl. revert j. induction Hl as [|x l [y Hy] _ IH]; intros j; [done|].
  simpl. rewrite Hy. destruct j; simpl; [done|apply IH].
Qed.

Lemma omap_total_length {A B} (f : A → option B) (l : list A) :
  Forall (λ x, is_Some (f x)) l → length (omap f l) = length l.
Proof.
  induction 1 as [|x l [y Hy] _ IH]; [done|]. simpl. rewrite Hy. simpl. by f_equal.
Qed.

Lemma len_iloc (ps : list nat) (df : DataFrame) :
  Forall (λ p, (p < len df)%nat) ps → len (iloc ps df) = length ps.
Proof.
  intros Hps. unfold len. simpl. apply omap_total_length.
  eapply Forall_impl; [exact Hps|]. intros p Hp. by apply lookup_lt_is_Some_2.
Qed.

Lemma columns_iloc (ps : list nat) (df : DataFrame) :
  columns (iloc ps df) = columns df.
Proof.
  unfold columns. simpl. rewrite <- list_fmap_compose. by apply list_fmap_ext.
Qed.

(** The rows of [df.iloc[ps]] are the rows of [df] at the positions [ps],
    in that order. *)
Lemma csv_of_iloc (ps : list nat) (df : DataFrame) :
  well_formed df → Forall (λ p, (p < len df)%nat) ps →
  csv_of (iloc ps df) = {| header := columns df; records := row_at df <$> ps |}.
Proof.
  intros Hwf Hps. unfold csv_of. rewrite columns_iloc, len_iloc by done.
  f_equal. apply list_eq. intros j.
  rewrite !list_lookup_fmap.
  destruct (ps !! j) as [p|] eqn:Hj; simpl.
  - rewrite lookup_seq_lt by (by eapply lookup_lt_Some). simpl. f_equal.
    unfold row_at. simpl. rewrite <- list_fmap_compose.
    apply Forall_fmap_ext_1. eapply Forall_impl; [exact Hwf|].
    intros [c vs] Hlen. simpl in *.
    rewrite omap_total_lookup, Hj; [done|].
    eapply Forall_impl; [exact Hps|]. intros q Hq.
    apply lookup_lt_is_Some_2. unfold len in *. simpl in *. lia.
  - rewrite lookup_ge_None_2; [done|].
    rewrite length_seq. by apply lookup_ge_None_1.
Qed.

Lemma exported_well_formed (docs : list document) : well_formed (exported docs).
Proof.
  apply Forall_forall. intros [c vs] Hin. simpl.
  rewrite exported_len. by eapply exported_series_length.
Qed.

(** ** The split *)

Section Split.

Variable permutation : Z → nat → list nat.

Lemma permutation_bounded (seed : Z) (n : nat) :
  permutation seed n ≡ₚ seq 0 n →
  Forall (λ p, (p < n)%nat) (permutation seed n).
Proof.
  intros Hperm. apply Forall_forall. intros p Hp.
  rewrite Hperm in Hp. apply elem_of_seq in Hp. lia.
Qed.

Lemma safe_indexing_ok (X : DataFrame) (indices : list nat) :
  Forall (λ p, (p < len X)%nat) indices →
  safe_indexing X indices = Ok (iloc indices X).
Proof.
  intros Hall. unfold safe_indexing.
  assert (forallb (λ p, (p <? len X)%nat) indices = true) as ->; [|done].
  apply forallb_forall. intros p Hp. apply Nat.ltb_lt.
  rewrite Forall_forall in Hall. by apply Hall, list_elem_of_In.
Qed.

(** What a successful [train_test_split] returns: the test rows are the
    first [n_test] positions of the shuffle, the train rows all the
    others, where [n_test] is the ceiling of the float product of the
    ratio and the number of rows. *)
Lemma train_test_split_ok (df : DataFrame) (r : spec_float) (seed : Z)
    (train test : DataFrame) :
  permutation seed (len df) ≡ₚ seq 0 (len df) →
  train_test_split permutation df (SizeFloat r) seed = Ok (train, test) →
  ∃ n_test : Z,
    ceil (float_mul r (float_of_int (Z.of_nat (len df)))) = Ok n_test
    ∧ 0 < n_test < Z.of_nat (len df)
    ∧ test = iloc (take (Z.to_nat n_test) (permutation seed (len df))) df
    ∧ train = iloc (drop (Z.to_nat n_test) (permutation seed (len df))) df.
Proof.
  intros Hperm. unfold train_test_split.
  destruct (validate_shuffle_split _ (SizeFloat r) _ _) as [[n_train n_test]|] eqn:Hv1;
    [|done].
  apply validate_float_size in Hv1 as (Hceil & Htrain & _).
  cbn [mbind result_bind]. unfold shuffle_split.
  destruct (validate_shuffle_split _ (SizeInt n_test) _ _) as [[a b]|] eqn:Hv2;
    [|done].
  apply validate_int_sizes in Hv2 as (-> & -> & Htest & _ & _).
  cbn [mbind result_bind].
  pose proof (Permutation_length Hperm) as Hlen. rewrite length_seq in Hlen.
  rewrite slice_prefix by lia.
  rewrite (slice_suffix _ n_test n_train) by lia.
  pose proof (permutation_bounded _ _ Hperm) as Hb.
  rewrite !safe_indexing_ok by (by apply Forall_take || by apply Forall_drop).
  intros [= <- <-]. eauto 10.
Qed.

(** When the split returns: the ratio is a float strictly between 0 and
    1, and the product rounded up leaves at least one row on each side. *)
Lemma train_test_split_returns (df : DataFrame) (r : spec_float) (seed : Z) (k : Z) :
  permutation seed (len df) ≡ₚ seq 0 (len df) →
  out_of_range (Z.of_nat (len df)) (SizeFloat r) = false →
  ceil (float_mul r (float_of_int (Z.of_nat (len df)))) = Ok k →
  0 < k < Z.of_nat (len df) →
  train_test_split permutation df (SizeFloat r) seed
  = Ok (iloc (drop (Z.to_nat k) (permutation seed (len df))) df,
        iloc (take (Z.to_nat k) (permutation seed (len df))) df).
Proof.
  intros Hperm Hrange Hceil Hk.
  pose proof (Permutation_length Hperm) as Hlen. rewrite length_seq in Hlen.
  pose proof (permutation_bounded _ _ Hperm) as Hb.
  assert (validate_shuffle_split (Z.of_nat (len df)) (SizeFloat r) SizeNone quarter
          = Ok (Z.of_nat (len df) - k, k)) as Hv1.
  { unfold validate_shuffle_split. rewrite Hrange.
    cbn -[float_of_int float_mul ceil Z.sub Z.add]. rewrite Hceil.
    cbn -[Z.sub Z.add].
    destruct (Z.ltb_spec (Z.of_nat (len df)) (Z.of_nat (len df) - k + k)); [lia|].
    destruct (Z.eqb_spec (Z.of_nat (len df) - k) 0); [lia|done]. }
  assert (validate_shuffle_split (Z.of_nat (len df)) (SizeInt k)
            (SizeInt (Z.of_nat (len df) - k)) tenth
          = Ok (Z.of_nat (len df) - k, k)) as Hv2.
  { unfold validate_shuffle_split. cbn -[Z.sub Z.add].
    destruct (Z.leb_spec (Z.of_nat (len df)) k); [lia|].
    destruct (Z.leb_spec k 0); [lia|].
    destruct (Z.leb_spec (Z.of_nat (len df)) (Z.of_nat (len df) - k)); [lia|].
    destruct (Z.leb_spec (Z.of_nat (len df) - k) 0); [lia|].
    cbn -[Z.sub Z.add].
    destruct (Z.ltb_spec (Z.of_nat (len df)) (Z.of_nat (len df) - k + k)); [lia|].
    destruct (Z.eqb_spec (Z.of_nat (len df) - k) 0); [lia|done]. }
  unfold train_test_split, shuffle_split. rewrite Hv1. cbn [mbind result_bind].
  rewrite Hv2. cbn [mbind result_bind].
  rewrite slice_prefix by lia.
  rewrite (slice_suffix _ k (Z.of_nat (len df) - k)) by lia.
  by rewrite !safe_indexing_ok by (by apply Forall_take || by apply Forall_drop).
Qed.

End Split.

(** ** Runs of the methods *)

Ltac run :=
  unfold try_except, makedirs, to_csv, find, lift, logging, called, get_mongo,
    update_fs, reraise, raise, mbind, M_bind, bind, mret, M_ret, ret;
  cbn [fs mongo add_log add_calls set_fs].

Section Runs.

Variable permutation : Z → nat → list nat.
Variable g : globals.
Variable self : DataIngestion.

Abbreviation config := (data_ingestion_config self).

Lemma init_run (cfg : DataIngestionConfig) (w : world) :
  __init__ cfg w
  = (Ok {| data_ingestion_config := cfg |},
     add_log w [(INFO, "DataIngestion class initialized.")]).
Proof. reflexivity. Qed.

(** The reader sends one query; it returns the exported table of the
    documents found, or wraps the failure of the query. *)
Lemma export_collection_as_dataframe_run (w : world) :
  export_collection_as_dataframe g self w
  = let w1 :=
      add_calls (add_log w [(INFO, "Exporting collection from MongoDB")])
        [Find (MONGO_DB_URL g) (database_name config) (collection_name config)] in
    match query (mongo w) (MONGO_DB_URL g) (database_name config) (collection_name config) with
    | Ok docs =>
        (Ok (exported docs),
         add_log w1
           [(INFO, "Successfully exported " +:+ pretty (len (exported docs))
                   +:+ " records from MongoDB.")])
    | Raise e =>
        (Raise (NetworkSecurityException e "export_collection_as_dataframe"),
         add_log w1 [(ERROR, "Error occurred while exporting collection.")])
    end.
Proof.
  unfold export_collection_as_dataframe. run.
  by destruct (query _ _ _ _).
Qed.

(** The writer creates the directory of the feature store, then writes
    the table there, and hands the table back. *)
Lemma export_data_into_feature_store_run (dataframe : DataFrame) (w : world) :
  export_data_into_feature_store self dataframe w
  = let path := feature_store_file_path config in
    let w1 := add_calls w [Makedirs (dirname path)] in
    match mkdir_p (dirname path) (fs w) with
    | Raise e =>
        (Raise (NetworkSecurityException e "export_data_into_feature_store"), w1)
    | Ok f1 =>
        let w2 := add_calls (set_fs w1 f1) [ToCsv path] in
        match write_file path (csv_of dataframe) f1 with
        | Raise e =>
            (Raise (NetworkSecurityException e "export_data_into_feature_store"), w2)
        | Ok f2 =>
            (Ok dataframe,
             add_log (set_fs w2 f2)
               [(INFO, "Data exported to feature store at " +:+ path)])
        end
    end.
Proof.
  unfold export_data_into_feature_store. run.
  destruct (mkdir_p _ _) as [f1|]; [|done].
  by destruct (write_file _ _ _).
Qed.

(** The splitter computes the two tables first; only then it creates the
    directory of the training file and writes the training file, then the
    testing file. *)
Lemma split_data_as_train_test_run (dataframe : DataFrame) (w : world) :
  split_data_as_train_test permutation self dataframe w
  = let wrap e := NetworkSecurityException e "split_data_as_train_test" in
    match train_test_split permutation dataframe
            (SizeFloat (train_test_split_ratio config)) 42 with
    | Raise e => (Raise (wrap e), w)
    | Ok (train_set, test_set) =>
        let w1 :=
          add_calls (add_log w [(INFO, "Performed train-test split.")])
            [Makedirs (dirname (training_file_path config))] in
        match mkdir_p (dirname (training_file_path config)) (fs w) with
        | Raise e => (Raise (wrap e), w1)
        | Ok f1 =>
            let w2 := add_calls (set_fs w1 f1) [ToCsv (training_file_path config)] in
            match write_file (training_file_path config) (csv_of train_set) f1 with
            | Raise e => (Raise (wrap e), w2)
            | Ok f2 =>
                let w3 := add_calls (set_fs w2 f2) [ToCsv (testing_file_path config)] in
                match write_file (testing_file_path config) (csv_of test_set) f2 with
                | Raise e => (Raise (wrap e), w3)
                | Ok f3 =>
                    (Ok (),
                     add_log (set_fs w3 f3)
                       [(INFO, "Train and test files saved successfully.")])
                end
            end
        end
    end.
Proof.
  unfold split_data_as_train_test. run.
  destruct (train_test_split _ _ _ _) as [[train_set test_set]|]; [|done].
  cbn [fs add_log add_calls set_fs].
  destruct (mkdir_p _ _) as [f1|]; [|done].
  destruct (write_file _ (csv_of train_set) _) as [f2|]; [|done].
  by destruct (write_file _ (csv_of test_set) _).
Qed.

(** The orchestrator runs the three steps in order and stops at the first
    one that raises. *)
Lemma initiate_data_ingestion_run (w : world) :
  initiate_data_ingestion permutation g self w
  = let wrap e := NetworkSecurityException e "initiate_data_ingestion" in
    match export_collection_as_dataframe g self
            (add_log w [(INFO, "Starting data ingestion process.")]) with
    | (Raise e, w1) => (Raise (wrap e), w1)
    | (Ok dataframe, w1) =>
        match export_data_into_feature_store self dataframe w1 with
        | (Raise e, w2) => (Raise (wrap e), w2)
        | (Ok dataframe, w2) =>
            match split_data_as_train_test permutation self dataframe w2 with
            | (Raise e, w3) => (Raise (wrap e), w3)
            | (Ok _, w3) =>
                (Ok {| trained_file_path := training_file_path config;
                       test_file_path := testing_file_path config |},
                 add_log w3 [(INFO, "Data ingestion completed successfully.")])
            end
        end
    end.
Proof.
  unfold initiate_data_ingestion. run.
  destruct (export_collection_as_dataframe _ _ _) as [[df|] w1]; [|done].
  destruct (export_data_into_feature_store _ _ _) as [[df'|] w2]; [|done].
  by destruct (split_data_as_train_test _ _ _ _) as [[[]|] w3].
Qed.

End Runs.

(** ** The file system *)

Lemma write_file_Ok (path : string) (content : csv) (f f' : gmap string node) :
  write_file path content f = Ok f' → f' = <[path := File content]> f.
Proof.
  unfold write_file. repeat case_bool_decide; try done.
  destruct (f !! path) as [[|c]|]; try done;
    destruct (opendir f (dirname path)); simpl; congruence.
Qed.

(** ** Rounding up *)


(** ** The splitter *)

Section Splitter.

Variable permutation : Z → nat → list nat.

(** A run of the splitter that returns has computed the two tables and
    left each in its file. *)
Lemma split_data_as_train_test_Ok (self : DataIngestion) (dataframe : DataFrame)
    (w w' : world) :
  split_data_as_train_test permutation self dataframe w = (Ok (), w') →
  ∃ train_set test_set,
    train_test_split permutation dataframe
      (SizeFloat (train_test_split_ratio (data_ingestion_config self))) 42
    = Ok (train_set, test_set)
    ∧ fs w' !! testing_file_path (data_ingestion_config self)
      = Some (File (csv_of test_set))
    ∧ (training_file_path (data_ingestion_config self)
       ≠ testing_file_path (data_ingestion_config self) →
       fs w' !! training_file_path (data_ingestion_config self)
       = Some (File (csv_of train_set))).
Proof.
  rewrite split_data_as_train_test_run. cbv zeta.
  destruct (train_test_split _ _ _ _) as [[train_set test_set]|]; [|done].
  destruct (mkdir_p _ _) as [f1|]; [|done].
  destruct (write_file _ (csv_of train_set) _) as [f2|] eqn:H2; [|done].
  destruct (write_file _ (csv_of test_set) _) as [f3|] eqn:H3; [|done].
  intros [= <-]. exists train_set, test_set.
  apply write_file_Ok in H2 as ->. apply write_file_Ok in H3 as ->. simpl.
  split; [done|]. split; [by rewrite lookup_insert_eq|].
  intros Hne. rewrite lookup_insert_ne by done. by rewrite lookup_insert_eq.
Qed.


(** C2. The split is a function of the table and the ratio alone: two runs
    of [split_data_as_train_test] on the same table with the same
    configured ratio, in any two worlds (the second may be the world the
    first left behind), that both return have computed the same train
    table and the same test table, and written them: the two testing
    files are equal, and so are the two training files. *)
Theorem split_is_deterministic (self1 self2 : DataIngestion) (dataframe : DataFrame)
    (w1 w1' w2 w2' : world) :
  train_test_split_ratio (data_ingestion_config self1)
  = train_test_split_ratio (data_ingestion_config self2) →
  split_data_as_train_test permutation self1 dataframe w1 = (Ok (), w1') →
  split_data_as_train_test permutation self2 dataframe w2 = (Ok (), w2') →
  ∃ train_set test_set,
    train_test_split permutation dataframe
      (SizeFloat (train_test_split_ratio (data_ingestion_config self1))) 42
    = Ok (train_set, test_set)
    ∧ fs w1' !! testing_file_path (data_ingestion_config self1)
      = Some (File (csv_of test_set))
    ∧ fs w2' !! testing_file_path (data_ingestion_config self2)
      = Some (File (csv_of test_set))
    ∧ (training_file_path (data_ingestion_config self1)
       ≠ testing_file_path (data_ingestion_config self1) →
       fs w1' !! training_file_path (data_ingestion_config self1)
       = Some (File (csv_of train_set)))
    ∧ (training_file_path (data_ingestion_config self2)
       ≠ testing_file_path (data_ingestion_config self2) →
       fs w2' !! training_file_path (data_ingestion_config self2)
       = Some (File (csv_of train_set))).
Proof.
  intros Hratio Hrun1 Hrun2.
  apply split_data_as_train_test_Ok in Hrun1 as (train & test & Hs1 & Hte1 & Htr1).
  apply split_data_as_train_test_Ok in Hrun2 as (train' & test' & Hs2 & Hte2 & Htr2).
  rewrite <- Hratio, Hs1 in Hs2. injection Hs2 as <- <-.
  exists train, test. auto.
Qed.

End Splitter.

(** ** The reader *)


(** A reader that finds the documents of the configured collection returns
    their exported table. *)
Lemma export_collection_as_dataframe_returns (g : globals) (self : DataIngestion)
    (w : world) (docs : list document) :
  query (mongo w) (MONGO_DB_URL g)
    (database_name (data_ingestion_config self))
    (collection_name (data_ingestion_config self)) = Ok docs →
  (export_collection_as_dataframe g self w).1 = Ok (exported docs).
Proof.
  intros Hq. rewrite export_collection_as_dataframe_run. cbv zeta.
  by rewrite Hq.
Qed.

(** C3. For a source collection of [N] documents the reader returns a
    table with exactly [N] rows (its length, each of its columns and the
    file written from it have [N] entries) and without an ["_id"] column,
    whatever the documents contain. *)
Theorem export_has_all_rows_and_no_id (g : globals) (self : DataIngestion)
    (w : world) (docs : list document) :
  query (mongo w) (MONGO_DB_URL g)
    (database_name (data_ingestion_config self))
    (collection_name (data_ingestion_config self)) = Ok docs →
  ∃ df,
    (export_collection_as_dataframe g self w).1 = Ok df
    ∧ len df = length docs
    ∧ Forall (λ s : string * list value, length s.2 = length docs) (series df)
    ∧ length (records (csv_of df)) = length docs
    ∧ "_id" ∉ columns df.
Proof.
  intros Hq. exists (exported docs).
  split; [by apply export_collection_as_dataframe_returns|].
  split; [apply exported_len|]. split; [|split].
  - pose proof (exported_well_formed docs) as Hwf. unfold well_formed in Hwf.
    by rewrite exported_len in Hwf.
  - simpl. by rewrite length_fmap, length_seq, exported_len.
  - apply exported_no_id.
Qed.


(** ** The writer *)

(** C9. When the feature-store writer returns, it returns the table it was
    given, and the feature-store file holds that table. *)
Theorem export_data_into_feature_store_returns_its_argument
    (self : DataIngestion) (dataframe dataframe' : DataFrame) (w w' : world) :
  export_data_into_feature_store self dataframe w = (Ok dataframe', w') →
  dataframe' = dataframe
  ∧ fs w' !! feature_store_file_path (data_ingestion_config self)
    = Some (File (csv_of dataframe)).
Proof.
  rewrite export_data_into_feature_store_run. cbv zeta.
  destruct (mkdir_p _ _) as [f1|]; [|done].
  destruct (write_file _ _ _) as [f2|] eqn:H2; [|done].
  intros [= <- <-]. apply write_file_Ok in H2 as ->. simpl.
  by rewrite lookup_insert_eq.
Qed.

(** ** Failures *)

Lemma query_library deployments url db coll :
  library_result (query deployments url db coll).
Proof. unfold query. by destruct (deployments !! url). Qed.

Lemma mkdirs_library (ps : list string) (f : gmap string node) :
  library_result (mkdirs ps f).
Proof.
  revert f. induction ps as [|p ps IH]; intros f; simpl; [done|].
  destruct (f !! p) as [[|c]|]; [apply IH| |apply IH].
  by destruct ps.
Qed.

Lemma mkdir_p_library (name : string) (f : gmap string node) :
  library_result (mkdir_p name f).
Proof.
  unfold mkdir_p. case_bool_decide; [done|].
  destruct (all_sep _); [done|apply mkdirs_library].
Qed.

Lemma opendir_library (f : gmap string node) (d : string) :
  library_result (opendir f d).
Proof.
  unfold opendir. destruct (_ || _); [done|].
  by destruct (f !! d) as [[|c]|].
Qed.

Lemma write_file_library (path : string) (content : csv) (f : gmap string node) :
  library_result (write_file path content f).
Proof.
  unfold write_file. repeat case_bool_decide; try done.
  pose proof (opendir_library f (dirname path)) as Hd.
  destruct (f !! path) as [[|c]|]; try done;
    by destruct (opendir f (dirname path)).
Qed.

Lemma ceil_library (x : spec_float) : library_result (ceil x).
Proof. by destruct x. Qed.

Lemma floor_library (x : spec_float) : library_result (floor x).
Proof. by destruct x. Qed.

Lemma validate_shuffle_split_library n test_size train_size d :
  library_result (validate_shuffle_split n test_size train_size d).
Proof.
  unfold validate_shuffle_split.
  repeat (destruct (out_of_range _ _); [done|]).
  destruct (sizes_exceed_one _ _); [done|].
  assert (∀ round sz, (∀ x, library_result (round x)) →
            library_result (count_of round n sz)) as Hcount.
  { intros round [| |x] Hround; simpl; auto. }
  pose proof (Hcount ceil
    match test_size with
    | SizeNone => match train_size with SizeNone => SizeFloat d | _ => test_size end
    | _ => test_size
    end ceil_library) as H1.
  pose proof (Hcount floor train_size floor_library) as H2.
  destruct (count_of ceil _ _) as [n_test|]; [|done].
  destruct (count_of floor _ _) as [n_train|]; [|done].
  cbn [mbind result_bind].
  by repeat case_match.
Qed.

Lemma train_test_split_library permutation df test_size seed :
  library_result (train_test_split permutation df test_size seed).
Proof.
  unfold train_test_split, shuffle_split, safe_indexing.
  pose proof (validate_shuffle_split_library (Z.of_nat (len df)) test_size SizeNone quarter) as H1.
  destruct (validate_shuffle_split _ test_size _ _) as [[n_train n_test]|]; [|done].
  cbn [mbind result_bind].
  pose proof (validate_shuffle_split_library (Z.of_nat (len df))
                (SizeInt n_test) (SizeInt n_train) tenth) as H2.
  destruct (validate_shuffle_split _ (SizeInt _) _ _) as [[a b]|]; [|done].
  cbn [mbind result_bind].
  by repeat case_match.
Qed.

(** On a table without rows the split raises [ValueError], whatever the
    ratio: no ratio leaves a row for the train set. *)
Lemma train_test_split_empty permutation (df : DataFrame) (r : spec_float) (seed : Z) :
  len df = 0%nat →
  train_test_split permutation df (SizeFloat r) seed = Raise ValueError.
Proof.
  intros Hlen. unfold train_test_split. rewrite Hlen.
  assert (validate_shuffle_split (Z.of_nat 0) (SizeFloat r) SizeNone quarter
          = Raise ValueError) as ->; [|done].
  unfold validate_shuffle_split.
  destruct r as [s|s| |s m e]; [by destruct s|by destruct s|done|].
  cbn -[float_of_int SFleb]. destruct (_ || _); [done|]. reflexivity.
Qed.

(** ** The pipeline *)

Lemma made_then {A B} (l1 l2 : list call) (w w1 : world) (a : A)
    (rw : result B * world) :
  made l1 w (Ok a, w1) → made l2 w1 rw → made (l1 ++ l2) w rw.
Proof.
  intros (cs1 & Hc1 & _ & ->) (cs2 & Hc2 & Hp2 & Hr). simpl in *.
  exists (l1 ++ cs2). rewrite Hc2, Hc1, app_assoc. split; [done|].
  split; [by apply prefix_app|]. destruct rw.1; [by rewrite Hr|done].
Qed.

Lemma made_stop {A B} (l1 l2 : list call) (w w1 : world) (e e' : exn) :
  made l1 w (@Raise A e, w1) → made (l1 ++ l2) w (@Raise B e', w1).
Proof.
  intros (cs & Hc & Hp & _). exists cs. simpl in *.
  split; [done|]. split; [by apply prefix_app_r|done].
Qed.

Section Pipeline.

Variable permutation : Z → nat → list nat.
Variable g : globals.
Variable self : DataIngestion.

Abbreviation config := (data_ingestion_config self).

Lemma reader_wraps (w : world) :
  wraps_once "export_collection_as_dataframe"
    (export_collection_as_dataframe g self w).1.
Proof.
  rewrite export_collection_as_dataframe_run. cbv zeta.
  pose proof (query_library (mongo w) (MONGO_DB_URL g)
                (database_name config) (collection_name config)) as Hq.
  by destruct (query _ _ _ _).
Qed.

Lemma writer_wraps (dataframe : DataFrame) (w : world) :
  wraps_once "export_data_into_feature_store"
    (export_data_into_feature_store self dataframe w).1.
Proof.
  rewrite export_data_into_feature_store_run. cbv zeta.
  pose proof (mkdir_p_library (dirname (feature_store_file_path config)) (fs w)) as H1.
  destruct (mkdir_p _ _) as [f1|]; [|done].
  pose proof (write_file_library (feature_store_file_path config)
                (csv_of dataframe) f1) as H2.
  by destruct (write_file _ _ _).
Qed.

Lemma splitter_wraps (dataframe : DataFrame) (w : world) :
  wraps_once "split_data_as_train_test"
    (split_data_as_train_test permutation self dataframe w).1.
Proof.
  rewrite split_data_as_train_test_run. cbv zeta.
  pose proof (train_test_split_library permutation dataframe
                (SizeFloat (train_test_split_ratio config)) 42) as H0.
  destruct (train_test_split _ _ _ _) as [[train_set test_set]|]; [|done].
  pose proof (mkdir_p_library (dirname (training_file_path config)) (fs w)) as H1.
  destruct (mkdir_p _ _) as [f1|]; [|done].
  pose proof (write_file_library (training_file_path config)
                (csv_of train_set) f1) as H2.
  destruct (write_file _ (csv_of train_set) _) as [f2|]; [|done].
  pose proof (write_file_library (testing_file_path config)
                (csv_of test_set) f2) as H3.
  by destruct (write_file _ (csv_of test_set) _).
Qed.

Lemma reader_made (w : world) :
  made [Find (MONGO_DB_URL g) (database_name config) (collection_name config)]
    w (export_collection_as_dataframe g self w).
Proof.
  rewrite export_collection_as_dataframe_run. cbv zeta.
  eexists [_]. by destruct (query _ _ _ _).
Qed.

Lemma writer_made (dataframe : DataFrame) (w : world) :
  made [Makedirs (dirname (feature_store_file_path config));
        ToCsv (feature_store_file_path config)]
    w (export_data_into_feature_store self dataframe w).
Proof.
  rewrite export_data_into_feature_store_run. cbv zeta.
  destruct (mkdir_p _ _) as [f1|].
  - destruct (write_file _ _ _); eexists [_; _]; simpl; by rewrite <- app_assoc.
  - eexists [_]. simpl. split; [done|]. split; [by eexists [_]|done].
Qed.

Lemma splitter_made (dataframe : DataFrame) (w : world) :
  made [Makedirs (dirname (training_file_path config));
        ToCsv (training_file_path config);
        ToCsv (testing_file_path config)]
    w (split_data_as_train_test permutation self dataframe w).
Proof.
  rewrite split_data_as_train_test_run. cbv zeta.
  destruct (train_test_split _ _ _ _) as [[train_set test_set]|].
  2:{ exists []. simpl. rewrite app_nil_r. split; [done|].
      split; [apply prefix_nil|done]. }
  destruct (mkdir_p _ _) as [f1|].
  2:{ eexists [_]. simpl. split; [done|]. split; [by eexists [_; _]|done]. }
  destruct (write_file _ (csv_of train_set) _) as [f2|].
  2:{ eexists [_; _]. simpl. rewrite <- app_assoc. split; [done|].
      split; [by eexists [_]|done]. }
  destruct (write_file _ (csv_of test_set) _);
    eexists [_; _; _]; simpl; by rewrite <- !app_assoc.
Qed.

(** C10. On a table without rows [split_data_as_train_test] raises the
    wrapper around the [ValueError] of the split routine, for every
    configured ratio, and leaves the world as it found it: no directory
    is created, no file is written, no call is made. *)
Theorem split_of_empty_table_raises (dataframe : DataFrame) (w : world) :
  len dataframe = 0%nat →
  split_data_as_train_test permutation self dataframe w
  = (Raise (NetworkSecurityException ValueError "split_data_as_train_test"), w).
Proof.
  intros Hlen. rewrite split_data_as_train_test_run. cbv zeta.
  by rewrite train_test_split_empty.
Qed.

(** C5. When the reader raises, [initiate_data_ingestion] raises the
    wrapper around the reader's exception; the file system is as it was
    before the run, and the query is the only call that was made: no
    directory was created and no file was written. *)
Theorem reader_failure_writes_nothing (w w1 : world) (e : exn) :
  export_collection_as_dataframe g self w = (Raise e, w1) →
  ∃ w',
    initiate_data_ingestion permutation g self w
    = (Raise (NetworkSecurityException e "initiate_data_ingestion"), w')
    ∧ fs w' = fs w
    ∧ calls w'
      = calls w ++ [Find (MONGO_DB_URL g)
                      (database_name config)
                      (collection_name config)].
Proof.
  rewrite initiate_data_ingestion_run, !export_collection_as_dataframe_run.
  cbv zeta. cbn [mongo add_log].
  destruct (query _ _ _ _) as [docs|e0]; [done|].
  intros [= <- _]. eexists. split; [done|]. by split.
Qed.

(** C7. When [initiate_data_ingestion] returns, the artifact names the
    training file and the testing file of the configuration. *)
Theorem artifact_names_configured_paths
    (w w' : world) (artifact : DataIngestionArtifact) :
  initiate_data_ingestion permutation g self w = (Ok artifact, w') →
  trained_file_path artifact = training_file_path config
  ∧ test_file_path artifact = testing_file_path config.
Proof.
  rewrite initiate_data_ingestion_run. cbv zeta.
  destruct (export_collection_as_dataframe _ _ _) as [[df|] w1]; [|done].
  destruct (export_data_into_feature_store _ _ _) as [[df'|] w2]; [|done].
  destruct (split_data_as_train_test _ _ _ _) as [[[]|] w3]; [|done].
  by intros [= <- _].
Qed.

(** C6. Each method returns or raises [NetworkSecurityException]: the
    constructor, the reader, the writer and the splitter raise the wrapper
    built in their own handler around the library error that stopped
    them; the orchestrator raises the wrapper built in its handler around
    the wrapper of the step that stopped it. The calls of a run of the
    orchestrator are an initial part of the six calls of the pipeline, in
    order, each made once, and all six when the run returns: no call is
    made again, and no step runs after one that raised. *)
Theorem failures_are_wrapped_and_not_retried
    (cfg : DataIngestionConfig) (dataframe : DataFrame) (w : world) :
  wraps_once "__init__" (__init__ cfg w).1
  ∧ wraps_once "export_collection_as_dataframe"
      (export_collection_as_dataframe g self w).1
  ∧ wraps_once "export_data_into_feature_store"
      (export_data_into_feature_store self dataframe w).1
  ∧ wraps_once "split_data_as_train_test"
      (split_data_as_train_test permutation self dataframe w).1
  ∧ wraps_step (initiate_data_ingestion permutation g self w).1
  ∧ ∃ cs,
      calls (initiate_data_ingestion permutation g self w).2 = calls w ++ cs
      ∧ cs `prefix_of` pipeline_calls g config
      ∧ match (initiate_data_ingestion permutation g self w).1 with
        | Ok _ => cs = pipeline_calls g config
        | Raise _ => True
        end.
Proof.
  split; [done|]. split; [apply reader_wraps|]. split; [apply writer_wraps|].
  split; [apply splitter_wraps|].
  rewrite initiate_data_ingestion_run. cbv zeta.
  set (w0 := add_log w [(INFO, "Starting data ingestion process.")]).
  set (c1 := Find (MONGO_DB_URL g) (database_name config) (collection_name config)).
  set (c2 := Makedirs (dirname (feature_store_file_path config))).
  set (c3 := ToCsv (feature_store_file_path config)).
  set (c4 := Makedirs (dirname (training_file_path config))).
  set (c5 := ToCsv (training_file_path config)).
  set (c6 := ToCsv (testing_file_path config)).
  change (pipeline_calls g config) with ([c1] ++ [c2; c3] ++ [c4; c5; c6]).
  pose proof (reader_wraps w0) as Hw1.
  pose proof (reader_made w0 : made [c1] w _) as Hm1.
  destruct (export_collection_as_dataframe g self w0) as [[df1|e1] w1].
  2:{ split.
      - destruct e1 as [| | | | | | | |cause f]; try done. simpl in *.
        destruct Hw1 as [-> ?]. repeat split; [left|done].
      - exact (made_stop [c1] _ w w1 e1 _ Hm1). }
  pose proof (writer_wraps df1 w1) as Hw2.
  pose proof (writer_made df1 w1 : made [c2; c3] w1 _) as Hm2.
  destruct (export_data_into_feature_store self df1 w1) as [[df2|e2] w2].
  2:{ split.
      - destruct e2 as [| | | | | | | |cause f]; try done. simpl in *.
        destruct Hw2 as [-> ?]. repeat split; [right; left|done].
      - apply (made_then [c1] _ w w1 df1 _ Hm1).
        exact (made_stop [c2; c3] _ w1 w2 e2 _ Hm2). }
  pose proof (splitter_wraps df2 w2) as Hw3.
  pose proof (splitter_made df2 w2 : made [c4; c5; c6] w2 _) as Hm3.
  assert (∀ (r : result DataIngestionArtifact) (w3 : world),
            made [c4; c5; c6] w2 (r, w3) →
            made ([c1] ++ [c2; c3] ++ [c4; c5; c6]) w (r, w3)) as Hall.
  { intros r w3 Hm. apply (made_then [c1] _ w w1 df1 _ Hm1).
    exact (made_then [c2; c3] _ w1 w2 df2 _ Hm2 Hm). }
  destruct (split_data_as_train_test permutation self df2 w2) as [[[]|e3] w3].
  - split; [done|]. apply Hall. destruct Hm3 as (cs & ? & ? & ?). by exists cs.
  - split.
    + destruct e3 as [| | | | | | | |cause f]; try done. simpl in *.
      destruct Hw3 as [-> ?]. repeat split; [right; right; left|done].
    + apply Hall. destruct Hm3 as (cs & ? & ? & ?). by exists cs.
Qed.

End Pipeline.

(** ** The connection string *)

Lemma import_module_run (w0 : world) :
  import_module w0
  = (Ok {| MONGO_DB_URL := (environ w0 ∪ dotenv w0) !! "MONGO_DB_URL" |},
     set_environ w0 (environ w0 ∪ dotenv w0)).
Proof. reflexivity. Qed.

(** C8, as the code has it. The variable is read once, when the module is
    imported, after the [.env] file has been loaded: the module global is
    the value the variable has then. A call of the reader uses the module
    global: the value of the variable in the environment of the call has
    no part in what the reader does. *)
Theorem url_is_read_at_import (w0 w1 : world) (g : globals) :
  import_module w0 = (Ok g, w1) →
  MONGO_DB_URL g = (environ w0 ∪ dotenv w0) !! "MONGO_DB_URL"
  ∧ ∀ (self : DataIngestion) (w : world) (env : gmap string string),
      export_collection_as_dataframe g self (set_environ w env)
      = ((export_collection_as_dataframe g self w).1,
         set_environ (export_collection_as_dataframe g self w).2 env).
Proof.
  rewrite import_module_run. intros [= <- _]. split; [done|].
  intros self w env. rewrite !export_collection_as_dataframe_run. cbv zeta.
  cbn [mongo set_environ]. by destruct (query _ _ _ _).
Qed.

Lemma url_is_read_at_import_witness :
  import_module Scenario.start
  = (Ok Scenario.g, (import_module Scenario.start).2)
  ∧ MONGO_DB_URL Scenario.g = Some Scenario.url
  ∧ (export_collection_as_dataframe Scenario.g Scenario.self Scenario.moved).1
    = Ok (exported Scenario.docs).
Proof.
  assert (import_module Scenario.start
          = (Ok Scenario.g, (import_module Scenario.start).2)) as Himport
    by (vm_compute; reflexivity).
  split; [exact Himport|].
  destruct (url_is_read_at_import _ _ _ Himport) as [Hurl Hcall].
  split; [rewrite Hurl; vm_compute; reflexivity|].
  unfold Scenario.moved. rewrite Hcall. vm_compute. reflexivity.
Defined.

(** C8, as stated, fails: after the import in the scenario the variable
    is changed to a deployment that cannot be reached; the reader still
    queries the deployment named at import time and returns its table,
    where a reader using the value of the variable at the time of the call
    raises. *)
Lemma reads_url_at_call_counterexample :
  (import_module Scenario.start).1 = Ok Scenario.g
  ∧ environ Scenario.moved !! "MONGO_DB_URL" = Some "mongodb://localhost:27017"
  ∧ (export_collection_as_dataframe Scenario.g Scenario.self Scenario.moved).1
    = Ok (exported Scenario.docs)
  ∧ (export_collection_as_dataframe
       {| MONGO_DB_URL := environ Scenario.moved !! "MONGO_DB_URL" |}
       Scenario.self Scenario.moved).1
    = Raise (NetworkSecurityException ServerSelectionTimeoutError
               "export_collection_as_dataframe")
  ∧ ¬ reads_url_at_call.
Proof.
  assert ((export_collection_as_dataframe Scenario.g Scenario.self Scenario.moved).1
          = Ok (exported Scenario.docs)) as Hold by (vm_compute; reflexivity).
  assert ((export_collection_as_dataframe
             {| MONGO_DB_URL := environ Scenario.moved !! "MONGO_DB_URL" |}
             Scenario.self Scenario.moved).1
          = Raise (NetworkSecurityException ServerSelectionTimeoutError
                     "export_collection_as_dataframe")) as Hnew
    by (vm_compute; reflexivity).
  repeat split; try done; try (vm_compute; reflexivity).
  intros Hclaim.
  specialize (Hclaim Scenario.start Scenario.g (import_module Scenario.start).2
                Scenario.self Scenario.moved).
  rewrite Hclaim in Hold; [|vm_compute; reflexivity].
  rewrite Hnew in Hold. discriminate.
Qed.

(** ** The scenario, run *)

Lemma shuffle_permutation (seed : Z) (n : nat) :
  Scenario.shuffle seed n ≡ₚ seq 0 n.
Proof. apply reverse_Permutation. Qed.


(** The splitter run a second time, in the world its first run left. *)
Lemma split_is_deterministic_witness :
  let dataframe := exported Scenario.docs in
  let run1 :=
    split_data_as_train_test Scenario.shuffle Scenario.self dataframe Scenario.start in
  let run2 :=
    split_data_as_train_test Scenario.shuffle Scenario.self dataframe run1.2 in
  train_test_split_ratio Scenario.config = train_test_split_ratio Scenario.config
  ∧ run1 = (Ok (), run1.2)
  ∧ run2 = (Ok (), run2.2)
  ∧ fs run1.2 !! "Artifacts/ingested/test.csv"
    = fs run2.2 !! "Artifacts/ingested/test.csv"
  ∧ fs run1.2 !! "Artifacts/ingested/train.csv"
    = fs run2.2 !! "Artifacts/ingested/train.csv".
Proof.
  intros dataframe run1 run2.
  assert (run1 = (Ok (), run1.2)) as Hrun1 by (vm_compute; reflexivity).
  assert (run2 = (Ok (), run2.2)) as Hrun2 by (vm_compute; reflexivity).
  split; [reflexivity|]. split; [exact Hrun1|]. split; [exact Hrun2|].
  destruct (split_is_deterministic Scenario.shuffle Scenario.self Scenario.self
              dataframe Scenario.start run1.2 run1.2 run2.2 eq_refl Hrun1 Hrun2)
    as (train_set & test_set & _ & Hte1 & Hte2 & Htr1 & Htr2).
  assert (training_file_path (data_ingestion_config Scenario.self)
          ≠ testing_file_path (data_ingestion_config Scenario.self)) as Hne
    by (vm_compute; discriminate).
  specialize (Htr1 Hne). specialize (Htr2 Hne).
  split.
  - exact (eq_trans Hte1 (eq_sym Hte2)).
  - exact (eq_trans Htr1 (eq_sym Htr2)).
Defined.

Lemma export_has_all_rows_and_no_id_witness :
  query (mongo Scenario.start) (MONGO_DB_URL Scenario.g) "NETWORK" "DATA"
  = Ok Scenario.docs
  ∧ ∃ df,
      (export_collection_as_dataframe Scenario.g Scenario.self Scenario.start).1
      = Ok df
      ∧ len df = 10%nat
      ∧ "_id" ∉ columns df.
Proof.
  assert (query (mongo Scenario.start) (MONGO_DB_URL Scenario.g) "NETWORK" "DATA"
          = Ok Scenario.docs) as Hq by (vm_compute; reflexivity).
  split; [exact Hq|].
  destruct (export_has_all_rows_and_no_id Scenario.g Scenario.self Scenario.start
              Scenario.docs Hq) as (df & Hrun & Hlen & _ & _ & Hid).
  exists df. split; [exact Hrun|]. split; [exact Hlen|exact Hid].
Defined.


Lemma export_data_into_feature_store_returns_its_argument_witness :
  let run :=
    export_data_into_feature_store Scenario.self (exported Scenario.docs)
      Scenario.start in
  run = (Ok (exported Scenario.docs), run.2)
  ∧ fs run.2 !! "Artifacts/feature_store/data.csv"
    = Some (File (csv_of (exported Scenario.docs))).
Proof.
  intros run.
  assert (run = (Ok (exported Scenario.docs), run.2)) as Hrun
    by (vm_compute; reflexivity).
  split; [exact Hrun|].
  pose proof (proj2 (export_data_into_feature_store_returns_its_argument
                       Scenario.self _ _ Scenario.start run.2 Hrun)) as Hfs.
  vm_compute in Hfs. vm_compute. exact Hfs.
Defined.

Lemma split_of_empty_table_raises_witness :
  len Scenario.empty_frame = 0%nat
  ∧ split_data_as_train_test Scenario.shuffle Scenario.self Scenario.empty_frame
      Scenario.start
    = (Raise (NetworkSecurityException ValueError "split_data_as_train_test"),
       Scenario.start).
Proof.
  split; [reflexivity|].
  exact (split_of_empty_table_raises Scenario.shuffle Scenario.self
           Scenario.empty_frame Scenario.start eq_refl).
Defined.

(** In the world where the variable names a deployment that cannot be
    reached, a module imported there fails at the query. *)
Lemma reader_failure_writes_nothing_witness :
  let g := {| MONGO_DB_URL := Some "mongodb://localhost:27017" |} in
  let read := export_collection_as_dataframe g Scenario.self Scenario.moved in
  let run := initiate_data_ingestion Scenario.shuffle g Scenario.self Scenario.moved in
  read
  = (Raise (NetworkSecurityException ServerSelectionTimeoutError
              "export_collection_as_dataframe"), read.2)
  ∧ run.1
    = Raise (NetworkSecurityException
               (NetworkSecurityException ServerSelectionTimeoutError
                  "export_collection_as_dataframe")
               "initiate_data_ingestion")
  ∧ fs run.2 = fs Scenario.moved
  ∧ calls run.2
    = calls Scenario.moved
      ++ [Find (Some "mongodb://localhost:27017") "NETWORK" "DATA"].
Proof.
  intros g read run.
  assert (read
          = (Raise (NetworkSecurityException ServerSelectionTimeoutError
                      "export_collection_as_dataframe"), read.2)) as Hread
    by (vm_compute; reflexivity).
  split; [exact Hread|].
  destruct (reader_failure_writes_nothing Scenario.shuffle g Scenario.self
              Scenario.moved read.2 _ Hread) as (w' & Hrun & Hfs & Hcalls).
  fold run in Hrun. rewrite Hrun. simpl.
  split; [reflexivity|]. split; [exact Hfs|exact Hcalls].
Defined.

Lemma artifact_names_configured_paths_witness :
  let run :=
    initiate_data_ingestion Scenario.shuffle Scenario.g Scenario.self Scenario.start in
  run
  = (Ok {| trained_file_path := "Artifacts/ingested/train.csv";
           test_file_path := "Artifacts/ingested/test.csv" |}, run.2)
  ∧ trained_file_path {| trained_file_path := "Artifacts/ingested/train.csv";
                         test_file_path := "Artifacts/ingested/test.csv" |}
    = training_file_path Scenario.config.
Proof.
  intros run.
  assert (run
          = (Ok {| trained_file_path := "Artifacts/ingested/train.csv";
                   test_file_path := "Artifacts/ingested/test.csv" |}, run.2))
    as Hrun by (vm_compute; reflexivity).
  split; [exact Hrun|].
  exact (proj1 (artifact_names_configured_paths Scenario.shuffle Scenario.g
                  Scenario.self Scenario.start run.2 _ Hrun)).
Defined.

(** ** Directories and files *)

Lemma mkdirs_kept (ps : list string) (f f' : gmap string node) (q : string) (n : node) :
  mkdirs ps f = Ok f' → f !! q = Some n → f' !! q = Some n.
Proof.
  revert f. induction ps as [|p ps IH]; intros f; simpl.
  - by intros [= <-].
  - destruct (f !! p) as [[|c]|] eqn:Hp; [by apply IH|done|].
    intros Hmk Hq. apply (IH _ Hmk). rewrite lookup_insert_ne; [done|].
    intros ->. congruence.
Qed.

Lemma mkdirs_made (ps : list string) (f f' : gmap string node) (p : string) :
  mkdirs ps f = Ok f' → p ∈ ps → f' !! p = Some Dir.
Proof.
  revert f. induction ps as [|p' ps IH]; intros f; simpl.
  - by intros _ ?%elem_of_nil.
  - destruct (f !! p') as [[|c]|] eqn:Hp; [|done|].
    + intros Hmk [->|Hin]%elem_of_cons; [|by eapply IH].
      by eapply mkdirs_kept.
    + intros Hmk [->|Hin]%elem_of_cons; [|by eapply IH].
      eapply mkdirs_kept; [done|]. by rewrite lookup_insert_eq.
Qed.


Lemma mkdirs_again (ps : list string) (f : gmap string node) :
  (∀ p, p ∈ ps → f !! p = Some Dir) → mkdirs ps f = Ok f.
Proof.
  induction ps as [|p ps IH]; intros Hall; simpl; [done|].
  rewrite (Hall p) by left. apply IH. intros q Hq. apply Hall. by right.
Qed.

Lemma mkdir_p_kept (name : string) (f f' : gmap string node) (q : string) (n : node) :
  mkdir_p name f = Ok f' → f !! q = Some n → f' !! q = Some n.
Proof.
  unfold mkdir_p. case_bool_decide; [done|].
  destruct (all_sep _); [by intros [= <-]|apply mkdirs_kept].
Qed.


Lemma dirs_kept_trans (f g h : gmap string node) :
  dirs_kept f g → dirs_kept g h → dirs_kept f h.
Proof. unfold dirs_kept. auto. Qed.

Lemma dirs_kept_insert (f : gmap string node) (p : string) (n : node) :
  f !! p ≠ Some Dir → dirs_kept f (<[p := n]> f).
Proof.
  intros Hp q Hq. rewrite lookup_insert_ne; [done|]. intros <-. congruence.
Qed.

Lemma dirs_kept_mkdir_p (name : string) (f f' : gmap string node) :
  mkdir_p name f = Ok f' → dirs_kept f f'.
Proof. intros Hmk q Hq. by eapply mkdir_p_kept. Qed.

Lemma dirs_kept_write_file (path : string) (content : csv) (f f' : gmap string node) :
  write_file path content f = Ok f' → dirs_kept f f'.
Proof.
  intros Hw. unfold write_file in Hw. repeat case_bool_decide; try done.
  destruct (f !! path) as [[|c]|] eqn:Hp; try done;
    destruct (opendir f (dirname path)); simpl in Hw; try done;
    injection Hw as <-; apply dirs_kept_insert; congruence.
Qed.

(** After [os.makedirs(name, exist_ok=True)] the directory is there, and
    files can be created in it. *)
Lemma mkdir_p_opendir (name : string) (f f' : gmap string node) :
  mkdir_p name f = Ok f' → opendir f' name = Ok ().
Proof.
  unfold mkdir_p, opendir. case_bool_decide; [done|]. simpl.
  destruct (all_sep _); [done|].
  intros Hmk. rewrite (mkdirs_made _ _ _ name Hmk); [done|].
  apply elem_of_app. right. by left.
Qed.

(** Running [os.makedirs] a second time, on a file system in which the
    directories of the first run are still there, changes nothing. *)
Lemma mkdir_p_again (name : string) (f f' g : gmap string node) :
  mkdir_p name f = Ok f' → dirs_kept f' g → mkdir_p name g = Ok g.
Proof.
  unfold mkdir_p. case_bool_decide; [done|].
  destruct (all_sep _); [done|].
  intros Hmk Hdirs. apply mkdirs_again. intros p Hp.
  apply Hdirs. by eapply mkdirs_made.
Qed.

Lemma opendir_kept (f g : gmap string node) (d : string) :
  opendir f d = Ok () → dirs_kept f g → opendir g d = Ok ().
Proof.
  unfold opendir. destruct (_ || _); [done|].
  destruct (f !! d) as [[|c]|] eqn:Hd; [|done..].
  intros _ Hdirs. by rewrite (Hdirs d Hd).
Qed.

(** What it takes for a file to be written, and what has been written. *)
Lemma write_file_inv (path : string) (content : csv) (f f' : gmap string node) :
  write_file path content f = Ok f' →
  f' = <[path := File content]> f
  ∧ path ≠ ""
  ∧ last (list_ascii_of_string path) ≠ Some sep
  ∧ f !! path ≠ Some Dir
  ∧ opendir f (dirname path) = Ok ().
Proof.
  unfold write_file. repeat case_bool_decide; try done.
  destruct (f !! path) as [[|c]|]; try done;
    destruct (opendir f (dirname path)) as [[]|] eqn:Hd; simpl; try done;
    intros [= <-]; done.
Qed.

Lemma write_file_returns (path : string) (content : csv) (f : gmap string node) :
  path ≠ "" →
  last (list_ascii_of_string path) ≠ Some sep →
  f !! path ≠ Some Dir →
  opendir f (dirname path) = Ok () →
  write_file path content f = Ok (<[path := File content]> f).
Proof.
  intros H1 H2 H3 H4. unfold write_file.
  rewrite bool_decide_eq_false_2 by done.
  rewrite bool_decide_eq_false_2 by done.
  rewrite H4. by destruct (f !! path) as [[|c]|].
Qed.

(** Writing over a file written before, with the directories still
    there. *)
Lemma write_file_again (path : string) (content content' : csv)
    (f f' g : gmap string node) :
  write_file path content f = Ok f' →
  dirs_kept f g →
  g !! path ≠ Some Dir →
  write_file path content' g = Ok (<[path := File content']> g).
Proof.
  intros (_ & H1 & H2 & _ & H4)%write_file_inv Hdirs Hg.
  apply write_file_returns; [done..|]. by eapply opendir_kept.
Qed.

(** The five file-system operations of the pipeline, run once more on the
    file system they left: each succeeds, and at the end the file system
    is the one they started from. *)
Lemma pipeline_fs_again (d1 p1 d2 p2 p3 : string) (F R T : csv)
    (f0 f1 f2 f3 f4 f5 : gmap string node) :
  mkdir_p d1 f0 = Ok f1 →
  write_file p1 F f1 = Ok f2 →
  mkdir_p d2 f2 = Ok f3 →
  write_file p2 R f3 = Ok f4 →
  write_file p3 T f4 = Ok f5 →
  mkdir_p d1 f5 = Ok f5
  ∧ write_file p1 F f5 = Ok (<[p1 := File F]> f5)
  ∧ mkdir_p d2 (<[p1 := File F]> f5) = Ok (<[p1 := File F]> f5)
  ∧ write_file p2 R (<[p1 := File F]> f5)
    = Ok (<[p2 := File R]> (<[p1 := File F]> f5))
  ∧ write_file p3 T (<[p2 := File R]> (<[p1 := File F]> f5)) = Ok f5.
Proof.
  intros H1 H2 H3 H4 H5.
  pose proof (dirs_kept_write_file _ _ _ _ H2) as K12.
  pose proof (dirs_kept_mkdir_p _ _ _ H3) as K23.
  pose proof (dirs_kept_write_file _ _ _ _ H4) as K34.
  pose proof (dirs_kept_write_file _ _ _ _ H5) as K45.
  pose proof H2 as (E2 & _)%write_file_inv.
  pose proof H4 as (E4 & _)%write_file_inv.
  pose proof H5 as (E5 & _)%write_file_inv.
  assert (∀ q c, f2 !! q = Some (File c) → ∃ c', f5 !! q = Some (File c')) as Hfile.
  { intros q c Hq. rewrite E5, E4.
    destruct (decide (p3 = q)) as [<-|?]; [rewrite lookup_insert_eq; eauto|].
    rewrite lookup_insert_ne by done.
    destruct (decide (p2 = q)) as [<-|?]; [rewrite lookup_insert_eq; eauto|].
    rewrite lookup_insert_ne by done.
    exists c. by eapply mkdir_p_kept. }
  assert (f5 !! p1 ≠ Some Dir) as N1.
  { destruct (Hfile p1 F) as [c' Hc']; [by rewrite E2, lookup_insert_eq|congruence]. }
  set (g1 := <[p1 := File F]> f5).
  assert (dirs_kept f5 g1) as K5g1 by (by apply dirs_kept_insert).
  assert (g1 !! p2 ≠ Some Dir) as N2.
  { unfold g1. destruct (decide (p1 = p2)) as [<-|?];
      [by rewrite lookup_insert_eq|].
    rewrite lookup_insert_ne by done. rewrite E5.
    destruct (decide (p3 = p2)) as [<-|?]; [by rewrite lookup_insert_eq|].
    rewrite lookup_insert_ne by done. by rewrite E4, lookup_insert_eq. }
  set (g2 := <[p2 := File R]> g1).
  assert (dirs_kept g1 g2) as Kg12 by (by apply dirs_kept_insert).
  assert (g2 !! p3 ≠ Some Dir) as N3.
  { unfold g2. destruct (decide (p2 = p3)) as [<-|?];
      [by rewrite lookup_insert_eq|].
    rewrite lookup_insert_ne by done. unfold g1.
    destruct (decide (p1 = p3)) as [<-|?]; [by rewrite lookup_insert_eq|].
    rewrite lookup_insert_ne by done. by rewrite E5, lookup_insert_eq. }
  assert (dirs_kept f1 f5) as K15 by eauto using dirs_kept_trans.
  assert (dirs_kept f3 g1) as K3g1 by eauto using dirs_kept_trans.
  assert (dirs_kept f4 g2) as K4g2 by eauto using dirs_kept_trans.
  split; [by eapply mkdir_p_again|].
  split; [by eapply write_file_again|].
  split; [by eapply mkdir_p_again|].
  split; [by eapply write_file_again|].
  rewrite (write_file_again _ _ T _ _ g2 H5 K4g2 N3). f_equal.
  apply map_eq. intros q. unfold g2, g1.
  destruct (decide (p3 = q)) as [<-|Q3].
  { by rewrite lookup_insert_eq, E5, lookup_insert_eq. }
  rewrite lookup_insert_ne by done.
  destruct (decide (p2 = q)) as [<-|Q2].
  { rewrite lookup_insert_eq, E5, lookup_insert_ne by done.
    by rewrite E4, lookup_insert_eq. }
  rewrite lookup_insert_ne by done.
  destruct (decide (p1 = q)) as [<-|Q1]; [|by rewrite lookup_insert_ne].
  rewrite lookup_insert_eq, E5, lookup_insert_ne by done.
  rewrite E4, lookup_insert_ne by done.
  symmetry. eapply mkdir_p_kept; [done|]. by rewrite E2, lookup_insert_eq.
Qed.

(** ** More on the writer and the splitter *)

Section Files.

Variable permutation : Z → nat → list nat.
Variable self : DataIngestion.

Abbreviation config := (data_ingestion_config self).

(** X1. With a feature-store path that has no directory part, as in
    ["data.csv"], the writer always raises: [os.path.dirname] gives [""]
    and [os.makedirs("")] is [FileNotFoundError]. No file is written. *)
Theorem writer_needs_a_directory_part (dataframe : DataFrame) (w : world) :
  dirname (feature_store_file_path config) = "" →
  ∃ w',
    export_data_into_feature_store self dataframe w
    = (Raise (NetworkSecurityException FileNotFoundError
                "export_data_into_feature_store"), w')
    ∧ fs w' = fs w
    ∧ calls w' = calls w ++ [Makedirs ""].
Proof.
  intros Hd. rewrite export_data_into_feature_store_run. cbv zeta.
  rewrite Hd. eexists. split; [reflexivity|]. by split.
Qed.

(** X2. With a training path that has no directory part the splitter
    never returns, whatever the table and the ratio, and the file system
    stays as it was. *)
Theorem splitter_needs_a_directory_part (dataframe : DataFrame) (w : world) :
  dirname (training_file_path config) = "" →
  ∃ e w',
    split_data_as_train_test permutation self dataframe w
    = (Raise (NetworkSecurityException e "split_data_as_train_test"), w')
    ∧ fs w' = fs w.
Proof.
  intros Hd. rewrite split_data_as_train_test_run. cbv zeta.
  destruct (train_test_split _ _ _ _) as [[train_set test_set]|e].
  - rewrite Hd. by eexists _, _.
  - by eexists _, _.
Qed.

(** X3. When the writer returns, the directory of the feature-store file
    and every directory above it exist. *)
Theorem writer_makes_the_directories (dataframe dataframe' : DataFrame)
    (w w' : world) (d : string) :
  export_data_into_feature_store self dataframe w = (Ok dataframe', w') →
  d ∈ ancestors (dirname (feature_store_file_path config))
        ++ [dirname (feature_store_file_path config)] →
  all_sep (list_ascii_of_string (dirname (feature_store_file_path config))) = false →
  fs w' !! d = Some Dir.
Proof.
  rewrite export_data_into_feature_store_run. cbv zeta.
  destruct (mkdir_p _ _) as [f1|] eqn:H1; [|done].
  destruct (write_file _ _ _) as [f2|] eqn:H2; [|done].
  intros [= _ <-] Hd Hsep. simpl.
  apply write_file_inv in H2 as (-> & _ & _ & Hp & _).
  unfold mkdir_p in H1. case_bool_decide; [done|]. rewrite Hsep in H1.
  pose proof (mkdirs_made _ _ _ d H1 Hd) as Hdir.
  rewrite lookup_insert_ne; [done|]. intros <-. congruence.
Qed.



(** X4. The writer can be run again: a second run on the same table, in
    the world the first run left, returns too and leaves the file system
    as the first run left it. *)
Theorem writer_can_run_again (dataframe dataframe' : DataFrame) (w w1 : world) :
  export_data_into_feature_store self dataframe w = (Ok dataframe', w1) →
  ∃ w2,
    export_data_into_feature_store self dataframe w1 = (Ok dataframe, w2)
    ∧ fs w2 = fs w1.
Proof.
  rewrite !export_data_into_feature_store_run. cbv zeta.
  destruct (mkdir_p _ (fs w)) as [f1|] eqn:H1; [|done].
  destruct (write_file _ _ f1) as [f2|] eqn:H2; [|done].
  intros [= _ <-]. cbn [fs add_log add_calls set_fs].
  pose proof (dirs_kept_write_file _ _ _ _ H2) as Hdirs.
  pose proof H2 as (-> & _)%write_file_inv.
  rewrite (mkdir_p_again _ _ _ _ H1 Hdirs).
  rewrite (write_file_again _ _ (csv_of dataframe) _ _ _ H2 Hdirs)
    by (by rewrite lookup_insert_eq).
  eexists. split; [reflexivity|]. simpl. apply insert_insert_eq.
Qed.

(** X5. The splitter can be run again: a second run on the same table,
    in the world the first run left, returns too and leaves the file
    system as the first run left it, the two files as they were written. *)
Theorem splitter_can_run_again (dataframe : DataFrame) (w w1 : world) :
  split_data_as_train_test permutation self dataframe w = (Ok (), w1) →
  ∃ w2,
    split_data_as_train_test permutation self dataframe w1 = (Ok (), w2)
    ∧ fs w2 = fs w1.
Proof.
  rewrite !split_data_as_train_test_run. cbv zeta.
  destruct (train_test_split _ _ _ _) as [[train_set test_set]|]; [|done].
  destruct (mkdir_p _ (fs w)) as [f1|] eqn:H1; [|done].
  destruct (write_file _ (csv_of train_set) f1) as [f2|] eqn:H2; [|done].
  destruct (write_file _ (csv_of test_set) f2) as [f3|] eqn:H3; [|done].
  intros [= <-]. cbn [fs add_log add_calls set_fs].
  pose proof (dirs_kept_write_file _ _ _ _ H2) as Hd12.
  pose proof (dirs_kept_write_file _ _ _ _ H3) as Hd23.
  pose proof H2 as (-> & _)%write_file_inv.
  pose proof H3 as (-> & _)%write_file_inv.
  set (tr := training_file_path config) in *.
  set (te := testing_file_path config) in *.
  set (R := File (csv_of train_set)) in *.
  set (T := File (csv_of test_set)) in *.
  set (f3 := <[te := T]> (<[tr := R]> f1)) in *.
  rewrite (mkdir_p_again _ _ _ _ H1 (dirs_kept_trans _ _ _ Hd12 Hd23)).
  assert (∃ c, f3 !! tr = Some (File c)) as [c Hc].
  { unfold f3. destruct (decide (te = tr)) as [->|Hne].
    - rewrite lookup_insert_eq. by eexists.
    - rewrite lookup_insert_ne by done. rewrite lookup_insert_eq. by eexists. }
  rewrite (write_file_again _ _ (csv_of train_set) _ _ f3 H2
             (dirs_kept_trans _ _ _ Hd12 Hd23)) by congruence.
  fold R.
  assert (dirs_kept f3 (<[tr := R]> f3)) as Hd34
    by (apply dirs_kept_insert; congruence).
  assert (<[tr := R]> f3 !! te ≠ Some Dir) as Hte.
  { destruct (decide (tr = te)) as [->|Hne].
    - by rewrite lookup_insert_eq.
    - rewrite lookup_insert_ne by done. unfold f3. by rewrite lookup_insert_eq. }
  rewrite (write_file_again _ _ (csv_of test_set) _ _ _ H3
             (dirs_kept_trans _ _ _ Hd23 Hd34) Hte).
  fold T. eexists. split; [reflexivity|]. simpl.
  apply map_eq. intros q. unfold f3.
  destruct (decide (te = q)) as [<-|Hq1]; [by rewrite !lookup_insert_eq|].
  rewrite (lookup_insert_ne _ te q) by done.
  rewrite (lookup_insert_ne _ te q) by done.
  destruct (decide (tr = q)) as [<-|Hq2]; [by rewrite !lookup_insert_eq|].
  rewrite (lookup_insert_ne _ tr q) by done.
  by rewrite (lookup_insert_ne _ te q) by done.
Qed.

End Files.

(** ** Rows and ratios *)

(** A split that returns has taken at least one row for the test set and
    left at least one for the train set. *)
Lemma train_test_split_sizes permutation (df : DataFrame) (test_size : split_size)
    (seed : Z) (train test : DataFrame) :
  train_test_split permutation df test_size seed = Ok (train, test) →
  (2 ≤ len df)%nat.
Proof.
  unfold train_test_split, shuffle_split.
  destruct (validate_shuffle_split _ test_size _ _) as [[n_train n_test]|]; [|done].
  cbn [mbind result_bind].
  destruct (validate_shuffle_split _ (SizeInt n_test) _ _) as [[a b]|] eqn:Hv2;
    [|done].
  apply validate_int_sizes in Hv2 as (_ & _ & Htest & _). lia.
Qed.

Lemma train_test_split_out_of_range permutation (df : DataFrame) (r : spec_float)
    (seed : Z) :
  out_of_range (Z.of_nat (len df)) (SizeFloat r) = true →
  train_test_split permutation df (SizeFloat r) seed = Raise ValueError.
Proof.
  intros Hr. unfold train_test_split, validate_shuffle_split. by rewrite Hr.
Qed.

Section Rows.

Variable permutation : Z → nat → list nat.
Variable self : DataIngestion.

Abbreviation config := (data_ingestion_config self).

(** X6. A table of fewer than two rows cannot be split: the splitter
    raises the wrapper around the error of the split routine, whatever
    the ratio, and leaves the world as it found it. *)
Theorem splitter_needs_two_rows (dataframe : DataFrame) (w : world) :
  (len dataframe < 2)%nat →
  ∃ e,
    split_data_as_train_test permutation self dataframe w
    = (Raise (NetworkSecurityException e "split_data_as_train_test"), w)
    ∧ library_error e = true.
Proof.
  intros Hlen. rewrite split_data_as_train_test_run. cbv zeta.
  pose proof (train_test_split_library permutation dataframe
                (SizeFloat (train_test_split_ratio config)) 42) as Hlib.
  destruct (train_test_split _ _ _ _) as [[train_set test_set]|e] eqn:Hs.
  - apply train_test_split_sizes in Hs. lia.
  - by exists e.
Qed.

(** X7. A ratio that is not strictly between 0 and 1, or that is not a
    number, is rejected by the split routine, for every table: the
    splitter raises the wrapper around [ValueError] and leaves the world
    as it found it. The method itself does not look at the ratio. *)
Theorem splitter_rejects_ratio_out_of_range (dataframe : DataFrame) (w : world) :
  SFleb (train_test_split_ratio config) (S754_zero false) = true
  ∨ SFleb (float_of_int 1) (train_test_split_ratio config) = true
  ∨ train_test_split_ratio config = S754_nan →
  split_data_as_train_test permutation self dataframe w
  = (Raise (NetworkSecurityException ValueError "split_data_as_train_test"), w).
Proof.
  intros Hr. rewrite split_data_as_train_test_run. cbv zeta.
  assert (train_test_split permutation dataframe
            (SizeFloat (train_test_split_ratio config)) 42 = Raise ValueError)
    as ->; [|done].
  destruct Hr as [Hr|[Hr|Hr]].
  - apply train_test_split_out_of_range. cbn -[float_of_int SFleb].
    by rewrite Hr.
  - apply train_test_split_out_of_range. cbn -[float_of_int SFleb].
    rewrite Hr. apply orb_true_r.
  - rewrite Hr. reflexivity.
Qed.

(** X8. When the splitter returns, neither file is empty and neither
    holds all the rows: the testing file has at least one record and
    fewer than the table has rows, and so has the training file. *)
Theorem splitter_leaves_no_side_empty (dataframe : DataFrame) (w w' : world) :
  permutation 42 (len dataframe) ≡ₚ seq 0 (len dataframe) →
  well_formed dataframe →
  split_data_as_train_test permutation self dataframe w = (Ok (), w') →
  (∃ rows,
     fs w' !! testing_file_path config
     = Some (File {| header := columns dataframe; records := rows |})
     ∧ (1 ≤ length rows < len dataframe)%nat)
  ∧ (training_file_path config ≠ testing_file_path config →
     ∃ rows,
       fs w' !! training_file_path config
       = Some (File {| header := columns dataframe; records := rows |})
       ∧ (1 ≤ length rows < len dataframe)%nat).
Proof.
  intros Hperm Hwf Hrun.
  apply split_data_as_train_test_Ok in Hrun
    as (train_set & test_set & Hsplit & Htest & Htrain).
  apply train_test_split_ok in Hsplit as (n_test & _ & Hn & -> & ->); [|done].
  pose proof (permutation_bounded _ _ _ Hperm) as Hb.
  pose proof (Permutation_length Hperm) as Hlen. rewrite length_seq in Hlen.
  rewrite csv_of_iloc in Htest by (done || by apply Forall_take).
  rewrite csv_of_iloc in Htrain by (done || by apply Forall_drop).
  split.
  - eexists. split; [exact Htest|].
    rewrite length_fmap, length_take. lia.
  - intros Hne. eexists. split; [exact (Htrain Hne)|].
    rewrite length_fmap, length_drop. lia.
Qed.

(** X9. The directory of the testing file is not created and is not
    checked before the training file is written: a run of the splitter
    that raises at its last call, the write of the testing file, leaves
    the training file it has just written. *)
Theorem splitter_keeps_training_file (dataframe : DataFrame) (w w' : world) (e : exn) :
  split_data_as_train_test permutation self dataframe w = (Raise e, w') →
  calls w'
  = calls w ++ [Makedirs (dirname (training_file_path config));
                ToCsv (training_file_path config);
                ToCsv (testing_file_path config)] →
  ∃ train_set test_set,
    train_test_split permutation dataframe
      (SizeFloat (train_test_split_ratio config)) 42 = Ok (train_set, test_set)
    ∧ fs w' !! training_file_path config = Some (File (csv_of train_set)).
Proof.
  rewrite split_data_as_train_test_run. cbv zeta.
  destruct (train_test_split _ _ _ _) as [[train_set test_set]|].
  2:{ intros [= _ <-] Hc. rewrite <- (app_nil_r (calls w)) in Hc at 1.
      by apply app_inv_head in Hc. }
  destruct (mkdir_p _ _) as [f1|].
  2:{ intros [= _ <-] Hc. simpl in Hc. by apply app_inv_head in Hc. }
  destruct (write_file _ (csv_of train_set) _) as [f2|] eqn:H2.
  2:{ intros [= _ <-] Hc. simpl in Hc. rewrite <- app_assoc in Hc.
      by apply app_inv_head in Hc. }
  destruct (write_file _ (csv_of test_set) _) as [f3|]; [done|].
  intros [= _ <-] _. exists train_set, test_set. split; [done|]. simpl.
  apply write_file_inv in H2 as (-> & _). by rewrite lookup_insert_eq.
Qed.

End Rows.

(** ** More on the pipeline *)

Section Whole.

Variable permutation : Z → nat → list nat.
Variable g : globals.
Variable self : DataIngestion.

Abbreviation config := (data_ingestion_config self).

(** What a run of the reader leaves: the file system and the deployments
    as they were, and the exported table of the documents found, or the
    wrapper around the error of the query. *)
Lemma export_collection_as_dataframe_inv (w w' : world) (r : result DataFrame) :
  export_collection_as_dataframe g self w = (r, w') →
  fs w' = fs w ∧ mongo w' = mongo w
  ∧ match r with
    | Ok df =>
        ∃ docs,
          query (mongo w) (MONGO_DB_URL g)
            (database_name config) (collection_name config) = Ok docs
          ∧ df = exported docs
    | Raise e =>
        ∃ cause,
          e = NetworkSecurityException cause "export_collection_as_dataframe"
    end.
Proof.
  rewrite export_collection_as_dataframe_run. cbv zeta.
  destruct (query _ _ _ _) as [docs|cause]; intros [= <- <-]; eauto.
Qed.

(** What a run of the writer that returns has done to the file system. *)
Lemma export_data_into_feature_store_inv (dataframe dataframe' : DataFrame)
    (w w' : world) :
  export_data_into_feature_store self dataframe w = (Ok dataframe', w') →
  dataframe' = dataframe ∧ mongo w' = mongo w
  ∧ ∃ f1,
      mkdir_p (dirname (feature_store_file_path config)) (fs w) = Ok f1
      ∧ write_file (feature_store_file_path config) (csv_of dataframe) f1
        = Ok (fs w').
Proof.
  rewrite export_data_into_feature_store_run. cbv zeta.
  destruct (mkdir_p _ _) as [f1|] eqn:H1; [|done].
  destruct (write_file _ _ _) as [f2|] eqn:H2; [|done].
  intros [= <- <-]. split; [done|]. split; [done|]. by exists f1.
Qed.


(** What a run of the splitter that returns has done to the file system. *)
Lemma split_data_as_train_test_inv (dataframe : DataFrame) (w w' : world) :
  split_data_as_train_test permutation self dataframe w = (Ok (), w') →
  mongo w' = mongo w
  ∧ ∃ train_set test_set f1 f2,
      train_test_split permutation dataframe
        (SizeFloat (train_test_split_ratio config)) 42 = Ok (train_set, test_set)
      ∧ mkdir_p (dirname (training_file_path config)) (fs w) = Ok f1
      ∧ write_file (training_file_path config) (csv_of train_set) f1 = Ok f2
      ∧ write_file (testing_file_path config) (csv_of test_set) f2 = Ok (fs w').
Proof.
  rewrite split_data_as_train_test_run. cbv zeta.
  destruct (train_test_split _ _ _ _) as [[train_set test_set]|] eqn:H0; [|done].
  destruct (mkdir_p _ _) as [f1|] eqn:H1; [|done].
  destruct (write_file _ (csv_of train_set) _) as [f2|] eqn:H2; [|done].
  destruct (write_file _ (csv_of test_set) _) as [f3|] eqn:H3; [|done].
  intros [= <-]. split; [done|]. by exists train_set, test_set, f1, f2.
Qed.

(** The three steps of a run of the orchestrator that returns. *)
Lemma initiate_data_ingestion_inv (w w' : world) (artifact : DataIngestionArtifact) :
  initiate_data_ingestion permutation g self w = (Ok artifact, w') →
  ∃ docs w1 w2 w3,
    query (mongo w) (MONGO_DB_URL g)
      (database_name config) (collection_name config) = Ok docs
    ∧ fs w1 = fs w ∧ mongo w1 = mongo w
    ∧ export_data_into_feature_store self (exported docs) w1
      = (Ok (exported docs), w2)
    ∧ split_data_as_train_test permutation self (exported docs) w2 = (Ok (), w3)
    ∧ fs w' = fs w3 ∧ mongo w' = mongo w3
    ∧ artifact = {| trained_file_path := training_file_path config;
                    test_file_path := testing_file_path config |}.
Proof.
  rewrite initiate_data_ingestion_run. cbv zeta.
  destruct (export_collection_as_dataframe _ _ _) as [[df|] w1] eqn:H1; [|done].
  apply export_collection_as_dataframe_inv in H1 as (Hfs & Hm & docs & Hq & ->).
  destruct (export_data_into_feature_store _ _ _) as [[df'|] w2] eqn:H2; [|done].
  pose proof (export_data_into_feature_store_inv _ _ _ _ H2) as (-> & _).
  destruct (split_data_as_train_test _ _ _ _) as [[[]|] w3] eqn:H3; [|done].
  intros [= <- <-]. exists docs, w1, w2, w3. by repeat split.
Qed.


(** X11. A collection of fewer than two documents cannot go through the
    pipeline: the orchestrator raises, whatever the ratio and the file
    system. *)
Theorem pipeline_needs_two_documents (w : world) (docs : list document) :
  query (mongo w) (MONGO_DB_URL g)
    (database_name config) (collection_name config) = Ok docs →
  (length docs < 2)%nat →
  ∃ e,
    (initiate_data_ingestion permutation g self w).1
    = Raise (NetworkSecurityException e "initiate_data_ingestion").
Proof.
  intros Hq Hlen. rewrite initiate_data_ingestion_run. cbv zeta.
  destruct (export_collection_as_dataframe _ _ _) as [[df|e1] w1] eqn:H1;
    [|by eexists].
  apply export_collection_as_dataframe_inv in H1 as (_ & _ & docs' & Hq' & ->).
  cbn [mongo add_log] in Hq'. rewrite Hq in Hq'. injection Hq' as <-.
  destruct (export_data_into_feature_store _ _ _) as [[df'|e2] w2] eqn:H2;
    [|by eexists].
  pose proof (export_data_into_feature_store_inv _ _ _ _ H2) as (-> & _).
  destruct (split_data_as_train_test _ _ _ _) as [[[]|e3] w3] eqn:H3;
    [|by eexists].
  apply split_data_as_train_test_inv in H3
    as (_ & train_set & test_set & _ & _ & Hs%train_test_split_sizes & _).
  rewrite exported_len in Hs. lia.
Qed.



(** X14. The pipeline can be run again: a second run of the orchestrator,
    in the world the first run left, returns the same artifact and leaves
    the file system as the first run left it, every file rewritten with
    the content it had. *)
Theorem pipeline_can_run_again (w w1 : world) (artifact : DataIngestionArtifact) :
  initiate_data_ingestion permutation g self w = (Ok artifact, w1) →
  ∃ w2,
    initiate_data_ingestion permutation g self w1 = (Ok artifact, w2)
    ∧ fs w2 = fs w1.
Proof.
  intros (docs & v1 & v2 & v3 & Hq & Hfs1 & Hm1 & Hwr & Hsp & Hfs & Hm & ->)
    %initiate_data_ingestion_inv.
  pose proof (export_data_into_feature_store_inv _ _ _ _ Hwr)
    as (_ & Hm2 & f1 & Hmk1 & Hw1).
  pose proof (split_data_as_train_test_inv _ _ _ Hsp)
    as (Hm3 & train_set & test_set & f3 & f4 & Hs & Hmk2 & Hw2 & Hw3).
  rewrite Hfs1 in Hmk1.
  destruct (pipeline_fs_again _ _ _ _ _ _ _ _ _ _ _ _ _ _ Hmk1 Hw1 Hmk2 Hw2 Hw3)
    as (A1 & A2 & A3 & A4 & A5).
  rewrite <- Hfs in A1, A2, A3, A4, A5.
  assert (mongo w1 = mongo w) as Hmongo by congruence.
  rewrite initiate_data_ingestion_run. cbv zeta.
  rewrite export_collection_as_dataframe_run. cbv zeta.
  cbn [mongo add_log]. rewrite Hmongo, Hq.
  rewrite export_data_into_feature_store_run. cbv zeta.
  cbn [fs add_log add_calls set_fs]. rewrite A1, A2.
  rewrite split_data_as_train_test_run. cbv zeta.
  cbn [fs add_log add_calls set_fs]. rewrite Hs, A3, A4, A5.
  eexists. split; [reflexivity|]. done.
Qed.

End Whole.

(** ** More on the reader *)

Lemma fast_unique_NoDup (ks seen : list string) : NoDup (fast_unique seen ks).
Proof.
  revert seen. induction ks as [|k ks IH]; intros seen; simpl; [constructor|].
  destruct (decide (k ∈ seen)); [apply IH|].
  constructor; [|apply IH].
  rewrite elem_of_fast_unique. intros [_ Hk]. apply Hk. by left.
Qed.

Lemma columns_pd_DataFrame (docs : list document) :
  columns (pd_DataFrame docs)
  = fast_unique [] (mjoin ((λ d : document, d.*1) <$> docs)).
Proof.
  unfold columns. simpl. rewrite <- list_fmap_compose.
  rewrite <- (list_fmap_id (fast_unique _ _)) at 2. by apply list_fmap_ext.
Qed.

Lemma columns_drop_column_filter (c : string) (df : DataFrame) :
  columns (drop_column c df) = filter (λ k, k ≠ c) (columns df).
Proof.
  unfold columns. simpl. induction (series df) as [|[k vs] l IH]; [done|].
  rewrite filter_cons. simpl. rewrite filter_cons.
  destruct (decide (k ≠ c)); simpl; [f_equal|]; exact IH.
Qed.

Lemma filter_keeps_all {A} (P : A → Prop) `{∀ x, Decision (P x)} (l : list A) :
  Forall P l → filter P l = l.
Proof.
  induction 1 as [|x l Hx _ IH]; [done|].
  rewrite filter_cons_True by done. by f_equal.
Qed.

Lemma columns_exported (docs : list document) :
  columns (exported docs) = filter (λ k, k ≠ "_id") (columns (pd_DataFrame docs)).
Proof.
  unfold exported. rewrite columns_replace. case_bool_decide as Hid.
  - apply columns_drop_column_filter.
  - symmetry. apply filter_keeps_all. apply Forall_forall. by intros k Hk ->.
Qed.

Lemma exported_cell_default (docs : list document) (i : nat) (d : document)
    (c : string) :
  docs !! i = Some d → c ∈ columns (exported docs) →
  cell (exported docs) i c
  = Some (if decide (default VNaN (assoc c d) = VStr "na") then VNaN
          else default VNaN (assoc c d)).
Proof.
  intros Hi Hc. rewrite columns_exported in Hc.
  apply list_elem_of_filter in Hc as [Hne Hc].
  rewrite columns_pd_DataFrame in Hc.
  unfold cell, exported. simpl. rewrite assoc_fmap_snd.
  assert (assoc c (series (pd_DataFrame docs))
          = Some ((λ d : document, default VNaN (assoc c d)) <$> docs)) as Hpd.
  { simpl. by apply (assoc_tabulate
                       (λ c, (λ d : document, default VNaN (assoc c d)) <$> docs)). }
  assert (assoc c (series (if bool_decide ("_id" ∈ columns (pd_DataFrame docs))
                           then drop_column "_id" (pd_DataFrame docs)
                           else pd_DataFrame docs))
          = Some ((λ d : document, default VNaN (assoc c d)) <$> docs)) as ->.
  { case_bool_decide; [|done]. simpl. rewrite assoc_filter_ne by done. apply Hpd. }
  simpl. by rewrite !list_lookup_fmap, Hi.
Qed.

(** X15. The table the reader returns has one column for each field name
    that occurs in a document, the name ["_id"] apart, and no column
    twice; where a document lacks the field of a column, its cell is
    [NaN]. *)
Theorem export_columns_are_the_fields (g : globals) (self : DataIngestion)
    (w : world) (docs : list document) :
  query (mongo w) (MONGO_DB_URL g)
    (database_name (data_ingestion_config self))
    (collection_name (data_ingestion_config self)) = Ok docs →
  ∃ df,
    (export_collection_as_dataframe g self w).1 = Ok df
    ∧ (∀ c, c ∈ columns df ↔ c ≠ "_id" ∧ ∃ d, d ∈ docs ∧ c ∈ d.*1)
    ∧ NoDup (columns df)
    ∧ (∀ i d c, docs !! i = Some d → c ∈ columns df → assoc c d = None →
         cell df i c = Some VNaN).
Proof.
  intros Hq. exists (exported docs).
  split; [by apply export_collection_as_dataframe_returns|].
  split; [|split].
  - intros c. rewrite columns_exported, list_elem_of_filter, columns_pd_DataFrame.
    rewrite elem_of_fast_unique, list_elem_of_join. split.
    + intros [Hne [(ks & Hc & (d & -> & Hd)%list_elem_of_fmap) _]]. eauto.
    + intros [Hne (d & Hd & Hc)]. split; [done|]. split; [|apply not_elem_of_nil].
      exists (d.*1). split; [done|]. apply list_elem_of_fmap. eauto.
  - rewrite columns_exported, columns_pd_DataFrame.
    apply NoDup_filter, fast_unique_NoDup.
  - intros i d c Hi Hc Hnone.
    rewrite (exported_cell_default docs i d c Hi Hc), Hnone. done.
Qed.

(** ** The cases, run *)

Lemma writer_needs_a_directory_part_witness :
  dirname "data.csv" = ""
  ∧ (export_data_into_feature_store Cases.bare (exported Scenario.docs)
       Scenario.start).1
    = Raise (NetworkSecurityException FileNotFoundError
               "export_data_into_feature_store")
  ∧ fs (export_data_into_feature_store Cases.bare (exported Scenario.docs)
          Scenario.start).2 = ∅.
Proof.
  split; [reflexivity|].
  destruct (writer_needs_a_directory_part Cases.bare (exported Scenario.docs)
              Scenario.start eq_refl) as (w' & Hrun & Hfs & _).
  rewrite Hrun. simpl. split; [reflexivity|exact Hfs].
Defined.

Lemma splitter_needs_a_directory_part_witness :
  dirname "train.csv" = ""
  ∧ ∃ e,
      (split_data_as_train_test Scenario.shuffle Cases.bare (exported Scenario.docs)
         Scenario.start).1
      = Raise (NetworkSecurityException e "split_data_as_train_test")
      ∧ fs (split_data_as_train_test Scenario.shuffle Cases.bare
              (exported Scenario.docs) Scenario.start).2 = ∅.
Proof.
  split; [reflexivity|].
  destruct (splitter_needs_a_directory_part Scenario.shuffle Cases.bare
              (exported Scenario.docs) Scenario.start eq_refl)
    as (e & w' & Hrun & Hfs).
  exists e. rewrite Hrun. simpl. split; [reflexivity|exact Hfs].
Defined.

Lemma writer_makes_the_directories_witness :
  let run :=
    export_data_into_feature_store Scenario.self (exported Scenario.docs)
      Scenario.start in
  run = (Ok (exported Scenario.docs), run.2)
  ∧ fs run.2 !! "Artifacts" = Some Dir
  ∧ fs run.2 !! "Artifacts/feature_store" = Some Dir.
Proof.
  intros run.
  assert (run = (Ok (exported Scenario.docs), run.2)) as Hrun
    by (vm_compute; reflexivity).
  split; [exact Hrun|].
  pose proof (λ d Hd,
    writer_makes_the_directories Scenario.self _ _ Scenario.start run.2 d
      Hrun Hd eq_refl) as Hdirs.
  split; apply Hdirs; vm_compute.
  - left.
  - right. left.
Defined.

Lemma writer_can_run_again_witness :
  let run :=
    export_data_into_feature_store Scenario.self (exported Scenario.docs)
      Scenario.start in
  let again :=
    export_data_into_feature_store Scenario.self (exported Scenario.docs) run.2 in
  run = (Ok (exported Scenario.docs), run.2)
  ∧ again.1 = Ok (exported Scenario.docs)
  ∧ fs again.2 = fs run.2.
Proof.
  intros run again.
  assert (run = (Ok (exported Scenario.docs), run.2)) as Hrun
    by (vm_compute; reflexivity).
  split; [exact Hrun|].
  destruct (writer_can_run_again Scenario.self _ _ Scenario.start run.2 Hrun)
    as (w2 & Hagain & Hfs).
  split.
  - exact (f_equal fst Hagain).
  - exact (eq_trans (f_equal (λ rw, fs rw.2) Hagain) Hfs).
Defined.

Lemma splitter_can_run_again_witness :
  let run :=
    split_data_as_train_test Scenario.shuffle Scenario.self (exported Scenario.docs)
      Scenario.start in
  let again :=
    split_data_as_train_test Scenario.shuffle Scenario.self (exported Scenario.docs)
      run.2 in
  run = (Ok (), run.2)
  ∧ again.1 = Ok ()
  ∧ fs again.2 = fs run.2.
Proof.
  intros run again.
  assert (run = (Ok (), run.2)) as Hrun by (vm_compute; reflexivity).
  split; [exact Hrun|].
  destruct (splitter_can_run_again Scenario.shuffle Scenario.self _
              Scenario.start run.2 Hrun) as (w2 & Hagain & Hfs).
  split.
  - exact (f_equal fst Hagain).
  - exact (eq_trans (f_equal (λ rw, fs rw.2) Hagain) Hfs).
Defined.

Lemma splitter_needs_two_rows_witness :
  (len (exported (take 1 Scenario.docs)) < 2)%nat
  ∧ ∃ e,
      split_data_as_train_test Scenario.shuffle Scenario.self
        (exported (take 1 Scenario.docs)) Scenario.start
      = (Raise (NetworkSecurityException e "split_data_as_train_test"),
         Scenario.start).
Proof.
  assert (len (exported (take 1 Scenario.docs)) < 2)%nat as Hlen
    by (vm_compute; lia).
  split; [exact Hlen|].
  destruct (splitter_needs_two_rows Scenario.shuffle Scenario.self _
              Scenario.start Hlen) as (e & Hrun & _).
  by exists e.
Defined.

Lemma splitter_rejects_ratio_out_of_range_witness :
  SFleb (float_of_int 1) (train_test_split_ratio
                            (data_ingestion_config Cases.all_for_test)) = true
  ∧ split_data_as_train_test Scenario.shuffle Cases.all_for_test
      (exported Scenario.docs) Scenario.start
    = (Raise (NetworkSecurityException ValueError "split_data_as_train_test"),
       Scenario.start).
Proof.
  split; [reflexivity|].
  apply (splitter_rejects_ratio_out_of_range Scenario.shuffle Cases.all_for_test).
  right. left. reflexivity.
Defined.

Lemma splitter_leaves_no_side_empty_witness :
  let dataframe := exported Scenario.docs in
  let run :=
    split_data_as_train_test Scenario.shuffle Scenario.self dataframe Scenario.start in
  Scenario.shuffle 42 (len dataframe) ≡ₚ seq 0 (len dataframe)
  ∧ well_formed dataframe
  ∧ run = (Ok (), run.2)
  ∧ ∃ rows,
      fs run.2 !! "Artifacts/ingested/test.csv"
      = Some (File {| header := ["x"]; records := rows |})
      ∧ (1 ≤ length rows < 10)%nat.
Proof.
  intros dataframe run.
  pose proof (shuffle_permutation 42 (len dataframe)) as Hperm.
  pose proof (exported_well_formed Scenario.docs) as Hwf.
  assert (run = (Ok (), run.2)) as Hrun by (vm_compute; reflexivity).
  split; [exact Hperm|]. split; [exact Hwf|]. split; [exact Hrun|].
  destruct (splitter_leaves_no_side_empty Scenario.shuffle Scenario.self dataframe
              Scenario.start run.2 Hperm Hwf Hrun) as [(rows & Hfile & Hlen) _].
  exists rows. vm_compute in Hfile. split; [vm_compute; exact Hfile|exact Hlen].
Defined.

Lemma splitter_keeps_training_file_witness :
  let run :=
    split_data_as_train_test Scenario.shuffle Cases.apart (exported Scenario.docs)
      Scenario.start in
  run
  = (Raise (NetworkSecurityException FileNotFoundError "split_data_as_train_test"),
     run.2)
  ∧ calls run.2
    = [Makedirs "Artifacts/ingested"; ToCsv "Artifacts/ingested/train.csv";
       ToCsv "Held_out/test.csv"]
  ∧ fs run.2 !! "Held_out/test.csv" = None
  ∧ ∃ train_set, fs run.2 !! "Artifacts/ingested/train.csv"
                 = Some (File (csv_of train_set)).
Proof.
  intros run.
  assert (run
          = (Raise (NetworkSecurityException FileNotFoundError
                      "split_data_as_train_test"), run.2)) as Hrun
    by (vm_compute; reflexivity).
  assert (calls run.2
          = calls Scenario.start
            ++ [Makedirs (dirname (training_file_path
                                     (data_ingestion_config Cases.apart)));
                ToCsv (training_file_path (data_ingestion_config Cases.apart));
                ToCsv (testing_file_path (data_ingestion_config Cases.apart))])
    as Hcalls by (vm_compute; reflexivity).
  split; [exact Hrun|]. split; [vm_compute; reflexivity|].
  split; [vm_compute; reflexivity|].
  destruct (splitter_keeps_training_file Scenario.shuffle Cases.apart _
              Scenario.start run.2 _ Hrun Hcalls)
    as (train_set & test_set & _ & Hfile).
  by exists train_set.
Defined.


Lemma pipeline_needs_two_documents_witness :
  query (mongo Cases.one_document) (MONGO_DB_URL Scenario.g) "NETWORK" "DATA"
  = Ok (take 1 Scenario.docs)
  ∧ (length (take 1 Scenario.docs) < 2)%nat
  ∧ ∃ e,
      (initiate_data_ingestion Scenario.shuffle Scenario.g Scenario.self
         Cases.one_document).1
      = Raise (NetworkSecurityException e "initiate_data_ingestion").
Proof.
  assert (query (mongo Cases.one_document) (MONGO_DB_URL Scenario.g)
            "NETWORK" "DATA" = Ok (take 1 Scenario.docs)) as Hq
    by (vm_compute; reflexivity).
  assert (length (take 1 Scenario.docs) < 2)%nat as Hlen by (vm_compute; lia).
  split; [exact Hq|]. split; [exact Hlen|].
  exact (pipeline_needs_two_documents Scenario.shuffle Scenario.g Scenario.self
           Cases.one_document _ Hq Hlen).
Defined.



Lemma pipeline_can_run_again_witness :
  let run :=
    initiate_data_ingestion Scenario.shuffle Scenario.g Scenario.self Scenario.start in
  let again :=
    initiate_data_ingestion Scenario.shuffle Scenario.g Scenario.self run.2 in
  run
  = (Ok {| trained_file_path := "Artifacts/ingested/train.csv";
           test_file_path := "Artifacts/ingested/test.csv" |}, run.2)
  ∧ again.1 = Ok {| trained_file_path := "Artifacts/ingested/train.csv";
                    test_file_path := "Artifacts/ingested/test.csv" |}
  ∧ fs again.2 = fs run.2.
Proof.
  intros run again.
  assert (run
          = (Ok {| trained_file_path := "Artifacts/ingested/train.csv";
                   test_file_path := "Artifacts/ingested/test.csv" |}, run.2))
    as Hrun by (vm_compute; reflexivity).
  split; [exact Hrun|].
  destruct (pipeline_can_run_again Scenario.shuffle Scenario.g Scenario.self
              Scenario.start run.2 _ Hrun) as (w2 & Hagain & Hfs).
  split.
  - exact (f_equal fst Hagain).
  - exact (eq_trans (f_equal (λ rw, fs rw.2) Hagain) Hfs).
Defined.

Lemma export_columns_are_the_fields_witness :
  query (mongo Scenario.start) (MONGO_DB_URL Scenario.g) "NETWORK" "DATA"
  = Ok Scenario.docs
  ∧ ∃ df,
      (export_collection_as_dataframe Scenario.g Scenario.self Scenario.start).1
      = Ok df
      ∧ "x" ∈ columns df
      ∧ "_id" ∉ columns df.
Proof.
  assert (query (mongo Scenario.start) (MONGO_DB_URL Scenario.g) "NETWORK" "DATA"
          = Ok Scenario.docs) as Hq by (vm_compute; reflexivity).
  split; [exact Hq|].
  destruct (export_columns_are_the_fields Scenario.g Scenario.self Scenario.start
              Scenario.docs Hq) as (df & Hrun & Hcols & _ & _).
  exists df. split; [exact Hrun|]. split.
  - apply Hcols. split; [discriminate|].
    exists [("_id", VOid "0"); ("x", VInt 0)]. split.
    + vm_compute. left.
    + right. left.
  - intros Hin. apply Hcols in Hin as [Hne _]. by apply Hne.
Defined.
